(** * Importing Jupyter notebooks as modules

    A shallow embedding of the import hook defined in
    [Workings/Importing Notebooks.ipynb]: the function [find_notebook], the
    class [NotebookLoader] (method [load_module]) and the class
    [NotebookFinder] (method [find_module]), together with the properties
    of the hook that follow from the code. *)

From Stdlib Require Import String Ascii ZArith List Lia.
From stdpp Require Import base option gmap strings list fin_maps.

Local Open Scope string_scope.

(** ** Python values, exceptions and outcomes *)

(** Identity of a dictionary object (a module's [__dict__], a user
    namespace).  A module and its [__dict__] are created together and are
    identified by the same location. *)
Definition loc := positive.

(** The Python values that the hook itself stores in a namespace. *)
Inductive value :=
  | VNone
  | VInt (z : Z)
  | VStr (s : string)
  | VLoader (id : nat)          (* a NotebookLoader instance, by identity *)
  | VModule (l : loc)           (* a module object, by identity *)
  | VBuiltin (name : string).   (* a function object such as get_ipython *)

(** An exception instance: its class name, its [args] and its [__cause__]. *)
#[warnings="-register-all"]
Inductive exn :=
  | Exn (cls : string) (args : list value) (cause : option exn).

Definition exn_class (e : exn) : string := let 'Exn c _ _ := e in c.
Definition exn_args (e : exn) : list value := let 'Exn _ a _ := e in a.
Definition exn_cause (e : exn) : option exn := let 'Exn _ _ c := e in c.

(** How a call ends: it returns a value or an exception propagates. *)
Inductive outcome (A : Type) :=
  | Return (a : A)
  | Raise (e : exn).
Arguments Return {A} a.
Arguments Raise {A} e.

(** ** Strings and paths *)

Definition dot : ascii := "."%char.
Definition underscore : ascii := "_"%char.
Definition space : ascii := " "%char.
Definition slash : ascii := "/"%char.

(** [after_last_dot s] is the text after the last dot of [s], when [s] has
    a dot. *)
Fixpoint after_last_dot (s : string) : option string :=
  match s with
  | EmptyString => None
  | String c r =>
      match after_last_dot r with
      | Some l => Some l
      | None => if Ascii.eqb c dot then Some r else None
      end
  end.

(** [fullname.rsplit('.', 1)[-1]] *)
Definition rsplit_last (fullname : string) : string :=
  match after_last_dot fullname with
  | Some l => l
  | None => fullname
  end.

(** [s.replace("_", " ")] *)
Fixpoint replace_underscores (s : string) : string :=
  match s with
  | EmptyString => EmptyString
  | String c r =>
      String (if Ascii.eqb c underscore then space else c)
             (replace_underscores r)
  end.

Definition startswith_sep (s : string) : bool :=
  match s with
  | String c _ => Ascii.eqb c slash
  | EmptyString => false
  end.

Fixpoint endswith_sep (s : string) : bool :=
  match s with
  | EmptyString => false
  | String c EmptyString => Ascii.eqb c slash
  | String _ r => endswith_sep r
  end.

(** [os.path.sep] and [os.path.join(a, b)] of the POSIX flavour of
    [os.path]: an absolute [b] replaces [a]; otherwise [b] is appended,
    after a separator unless [a] is empty or already ends with one. *)
Definition os_path_sep : string := "/".

Definition os_path_join (a b : string) : string :=
  if startswith_sep b then b
  else if (String.eqb a "" || endswith_sep a)%bool then a ++ b
  else a ++ os_path_sep ++ b.

(** [os.path.sep.join(path)] *)
Fixpoint sep_join (path : list string) : string :=
  match path with
  | [] => ""
  | [d] => d
  | d :: ds => d ++ os_path_sep ++ sep_join ds
  end.

(** ** Notebook documents and the file system *)

Record cell := Cell { cell_type : string; source : string }.

(** What is stored under a path that names a regular file: reading it as a
    notebook ([nbformat.read(f, 4)]) either raises or yields the cells. *)
Inductive file :=
  | Unreadable (e : exn)
  | Notebook (cells : list cell).

Definition nb_cells (f : file) : outcome (list cell) :=
  match f with
  | Unreadable e => Raise e
  | Notebook cs => Return cs
  end.

(** [os.path.isfile] *)
Definition isfile (fs : gmap string file) (p : string) : bool :=
  bool_decide (is_Some (fs !! p)).

(** ** [find_notebook] *)

(** The body of [for d in path:]; falling off the end of the loop, the
    function returns [None]. *)
Fixpoint find_in_dirs (fs : gmap string file) (name : string)
    (dirs : list string) : option string :=
  match dirs with
  | [] => None
  | d :: ds =>
      let nb_path := os_path_join d (name ++ ".ipynb") in
      if isfile fs nb_path then Some nb_path
      else
        let nb_path := replace_underscores nb_path in
        if isfile fs nb_path then Some nb_path
        else find_in_dirs fs name ds
  end.

(** [if not path: path = ['']] *)
Definition effective_path (path : option (list string)) : list string :=
  match path with
  | None => [""]
  | Some [] => [""]
  | Some ds => ds
  end.

Definition find_notebook (fs : gmap string file) (fullname : string)
    (path : option (list string)) : option string :=
  let name := rsplit_last fullname in
  find_in_dirs fs name (effective_path path).

(** ** The interpreter state *)

(** A [NotebookLoader] instance: its identity and its attribute
    [self.path] ([self.shell] is the one shared [InteractiveShell]). *)
Record NotebookLoader := Loader {
  loader_id : nat;
  loader_path : option (list string)
}.

(** The part of the interpreter state the hook reads and writes. *)
Record world := World {
  fs : gmap string file;                 (* regular files, by path *)
  heap : gmap loc (gmap string value);   (* dictionaries, by identity *)
  sys_modules : gmap string loc;         (* sys.modules *)
  user_ns : loc;                         (* shell.user_ns *)
  stdout : list string;                  (* what print has written *)
  next_loader : nat                      (* identity of the next new loader *)
}.

Definition set_heap (h : gmap loc (gmap string value)) (w : world) : world :=
  World (fs w) h (sys_modules w) (user_ns w) (stdout w) (next_loader w).
Definition set_sys_modules (m : gmap string loc) (w : world) : world :=
  World (fs w) (heap w) m (user_ns w) (stdout w) (next_loader w).
Definition set_user_ns (l : loc) (w : world) : world :=
  World (fs w) (heap w) (sys_modules w) l (stdout w) (next_loader w).
Definition set_fs (f : gmap string file) (w : world) : world :=
  World f (heap w) (sys_modules w) (user_ns w) (stdout w) (next_loader w).
Definition print (line : string) (w : world) : world :=
  World (fs w) (heap w) (sys_modules w) (user_ns w) (stdout w ++ [line])
        (next_loader w).
Definition bump_loader (w : world) : world :=
  World (fs w) (heap w) (sys_modules w) (user_ns w) (stdout w)
        (S (next_loader w)).

(** ["%s" % path] for a path that is a string or [None] *)
Definition str_of_path (path : option string) : string :=
  match path with
  | Some p => p
  | None => "None"
  end.

(** [types.ModuleType(fullname).__dict__] *)
Definition ModuleType (fullname : string) : gmap string value :=
  <["__name__" := VStr fullname]>
    (<["__doc__" := VNone]>
       (<["__package__" := VNone]>
          (<["__loader__" := VNone]> (<["__spec__" := VNone]> ∅)))).

Definition get_ipython : value := VBuiltin "get_ipython".

(** [io.open(None, ...)] *)
Definition open_None_error : exn :=
  Exn "TypeError"
      [VStr "expected str, bytes or os.PathLike object, not NoneType"] None.

(** [io.open(p, 'r')] for a path that names no file *)
Definition open_missing_error (p : string) : exn :=
  Exn "FileNotFoundError" [VInt 2; VStr "No such file or directory"; VStr p]
      None.

(** [with io.open(path, 'r', encoding='utf-8') as f: nb = read(f, 4)],
    giving [nb.cells] *)
Definition open_and_read (path : option string) (w : world)
    : outcome (list cell) :=
  match path with
  | None => Raise open_None_error
  | Some p =>
      match fs w !! p with
      | None => Raise (open_missing_error p)
      | Some f => nb_cells f
      end
  end.

(** ** [NotebookLoader.load_module] *)

Section Loader.

(** The two collaborators the loader calls: the shell's
    [input_transformer_manager.transform_cell], a function from text to
    text, and the builtin [exec(code, globals, locals)], which may change
    any part of the state and may raise. *)
Variable transform_cell : string -> string.
Variable exec : string -> loc -> loc -> world -> world * option exn.

(** The loop [for cell in nb.cells: ...] inside [try]: the state it
    leaves and the exception that ended it, if any.  [exec(code,
    mod.__dict__)] is given no locals, so the globals are the locals
    too. *)
Fixpoint exec_cells (cells : list cell) (m : loc) (w : world)
    : world * option exn :=
  match cells with
  | [] => (w, None)
  | c :: rest =>
      if String.eqb (cell_type c) "code" then
        let code := transform_cell (source c) in
        match exec code m m w with
        | (w', None) => exec_cells rest m w'
        | (w', Some e) => (w', Some e)
        end
      else exec_cells rest m w
  end.

(** Lines 131 to 135: the module is created, its metadata and
    [get_ipython] are stored, and it is added to [sys.modules]. *)
Definition create_module (self : NotebookLoader) (fullname path : string)
    (w : world) : loc * world :=
  let m := fresh (dom (heap w)) in
  let d := ModuleType fullname in
  let d := <["__file__" := VStr path]> d in
  let d := <["__loader__" := VLoader (loader_id self)]> d in
  let d := <["get_ipython" := get_ipython]> d in
  let w := set_heap (<[m := d]> (heap w)) w in
  let w := set_sys_modules (<[fullname := m]> (sys_modules w)) w in
  (m, w).

Definition load_module (self : NotebookLoader) (fullname : string)
    (w : world) : world * outcome loc :=
  let path := find_notebook (fs w) fullname (loader_path self) in
  let w := print ("importing Jupyter notebook from " ++ str_of_path path) w in
  match open_and_read path w with
  | Raise e => (w, Raise e)
  | Return cells =>
      let '(m, w) := create_module self fullname (str_of_path path) w in
      let save_user_ns := user_ns w in
      let w := set_user_ns m w in
      let '(w, r) := exec_cells cells m w in
      (* finally: *)
      let w := set_user_ns save_user_ns w in
      match r with
      | Some e => (w, Raise e)
      | None => (w, Return m)
      end
  end.

End Loader.

(** ** [NotebookFinder.find_module] *)

(** The finder's attribute [self.loaders]: a dictionary whose keys are
    [None] or strings. *)
Record NotebookFinder := Finder {
  loaders : gmap (option string) NotebookLoader
}.

(** [NotebookFinder()] *)
Definition new_finder : NotebookFinder := Finder ∅.

(** The value bound to [key]: [path] itself ([None] or a list), or a
    string. *)
Inductive cache_key :=
  | KeyNone
  | KeyList (l : list string)
  | KeyStr (s : string).

(** [key = path; if path: key = os.path.sep.join(path)] *)
Definition key_of_path (path : option (list string)) : cache_key :=
  match path with
  | None => KeyNone
  | Some [] => KeyList []
  | Some p => KeyStr (sep_join p)
  end.

Definition unhashable_list : exn :=
  Exn "TypeError" [VStr "unhashable type: 'list'"] None.

(** Using [key] as a dictionary key hashes it: [None] and strings are
    hashable, a list is not. *)
Definition dict_key (k : cache_key) : outcome (option string) :=
  match k with
  | KeyNone => Return None
  | KeyStr s => Return (Some s)
  | KeyList _ => Raise unhashable_list
  end.

(** [not nb_path] *)
Definition not_path (nb_path : option string) : bool :=
  match nb_path with
  | None => true
  | Some p => String.eqb p ""
  end.

Definition find_module (self : NotebookFinder) (fullname : string)
    (path : option (list string)) (w : world)
    : NotebookFinder * world * outcome (option NotebookLoader) :=
  let nb_path := find_notebook (fs w) fullname path in
  if not_path nb_path then (self, w, Return None)
  else
    let key := key_of_path path in
    match dict_key key with
    | Raise e => (self, w, Raise e)
    | Return k =>
        match loaders self !! k with
        | Some l => (self, w, Return (Some l))
        | None =>
            let l := Loader (next_loader w) path in
            (Finder (<[k := l]> (loaders self)), bump_loader w,
             Return (Some l))
        end
    end.

(** ** The algorithm of the specification, for comparison *)

(** The candidate built from the unmodified leaf name, and the candidate
    built after every underscore of the leaf name is replaced by a space. *)
Definition primary_candidate (name d : string) : string :=
  os_path_join d (name ++ ".ipynb").
Definition fallback_candidate (name d : string) : string :=
  os_path_join d (replace_underscores name ++ ".ipynb").

(** [locate] as the specification words it: every directory is tried with
    the primary candidate first; the fallback candidates are tried only
    when no directory has the primary one. *)
Definition locate_spec (fs : gmap string file) (fullname : string)
    (path : option (list string)) : option string :=
  let name := rsplit_last fullname in
  let dirs := effective_path path in
  match List.find (isfile fs) (map (primary_candidate name) dirs) with
  | Some p => Some p
  | None => List.find (isfile fs) (map (fallback_candidate name) dirs)
  end.

(** The order in which the code tries the candidates: directory by
    directory, primary then fallback. *)
Definition candidates (name : string) (dirs : list string) : list string :=
  flat_map (fun d => [primary_candidate name d; fallback_candidate name d])
           dirs.

Fixpoint has_underscore (s : string) : bool :=
  match s with
  | EmptyString => false
  | String c r => (Ascii.eqb c underscore || has_underscore r)%bool
  end.

(** The error the specification asks for: a [LoadError] whose cause is the
    original exception and whose arguments carry the module name and the
    index of the failing fragment. *)
Definition LoadError_wrapping (e orig : exn) (fullname : string) (idx : nat)
    : Prop :=
  exn_class e = "LoadError" /\ exn_cause e = Some orig /\
  In (VStr fullname) (exn_args e) /\ In (VInt (Z.of_nat idx)) (exn_args e).

Section Fragments.

Variable transform_cell : string -> string.
Variable exec : string -> loc -> loc -> world -> world * option exn.

(** The executable texts of a document: its fragments of kind [code],
    in document order, each transformed. *)
Definition code_fragments (cells : list cell) : list string :=
  map (fun c => transform_cell (source c))
      (List.filter (fun c => String.eqb (cell_type c) "code") cells).

(** Executing texts one after the other in the namespace [m], each
    once, up to the first that raises. *)
Fixpoint run_fragments (codes : list string) (m : loc) (w : world)
    : world * option exn :=
  match codes with
  | [] => (w, None)
  | code :: rest =>
      let '(w', r) := exec code m m w in
      match r with
      | None => run_fragments rest m w'
      | Some e => (w', Some e)
      end
  end.

End Fragments.

(** Assumptions on what executed code does, used where a property of the
    loader depends on them. *)

(** Executed code writes to no dictionary other than its own scope and
    the shell's current user namespace. *)
Definition writes_only_scopes
    (exec : string -> loc -> loc -> world -> world * option exn) : Prop :=
  forall code g l w x,
    x <> l -> x <> user_ns w ->
    heap (exec code g l w).1 !! x = heap w !! x.

(** Executed code does not rebind [shell.user_ns]. *)
Definition keeps_user_ns
    (exec : string -> loc -> loc -> world -> world * option exn) : Prop :=
  forall code g l w, user_ns (exec code g l w).1 = user_ns w.

(** Executed code leaves the entry of [sys.modules] for [name] alone. *)
Definition keeps_registered
    (exec : string -> loc -> loc -> world -> world * option exn)
    (name : string) : Prop :=
  forall code g l w,
    sys_modules (exec code g l w).1 !! name = sys_modules w !! name.

(** ** A sequence of [find_module] calls on one finder *)

(** One call: the files present when it is made, and its arguments. *)
Record find_call := FindCall {
  call_fs : gmap string file;
  call_name : string;
  call_path : option (list string)
}.

Fixpoint find_modules (self : NotebookFinder) (w : world)
    (calls : list find_call) : list (outcome (option NotebookLoader)) :=
  match calls with
  | [] => []
  | c :: cs =>
      let '(self', w', r) :=
        find_module self (call_name c) (call_path c) (set_fs (call_fs c) w) in
      r :: find_modules self' w' cs
  end.

(** ** Sample data *)

Module Sample.

(** A small interpreter for a handful of statements, enough to run the
    sample notebooks: an assignment, an assignment that reads a name, a
    write to the shell's user namespace, an import of an already
    registered module, and a division by zero. *)
Definition bind (l : loc) (k : string) (v : value) (w : world) : world :=
  match heap w !! l with
  | Some d => set_heap (<[l := <[k := v]> d]> (heap w)) w
  | None => w
  end.

Definition name_error (n : string) : exn :=
  Exn "NameError" [VStr ("name '" ++ n ++ "' is not defined")] None.
Definition zero_division : exn :=
  Exn "ZeroDivisionError" [VStr "division by zero"] None.

Definition exec (code : string) (globals locals : loc) (w : world)
    : world * option exn :=
  if String.eqb code "a = 1" then (bind locals "a" (VInt 1) w, None)
  else if String.eqb code "b = a + 1" then
    match heap w !! globals ≫= (fun d => d !! "a") with
    | Some (VInt z) => (bind locals "b" (VInt (z + 1)) w, None)
    | _ => (w, Some (name_error "a"))
    end
  else if String.eqb code "get_ipython().user_ns['x'] = 1" then
    (bind (user_ns w) "x" (VInt 1) w, None)
  else if String.eqb code "import nb" then
    match sys_modules w !! "nb" with
    | Some l => (bind locals "nb" (VModule l) w, None)
    | None => (w, Some (Exn "ModuleNotFoundError" [VStr "nb"] None))
    end
  else if String.eqb code "1/0" then (w, Some zero_division)
  else (w, None).

Definition transform_cell (s : string) : string := s.

Definition doc_ab : list cell :=
  [Cell "code" "a = 1"; Cell "markdown" "ignored"; Cell "code" "b = a + 1"].
Definition doc_fail : list cell :=
  [Cell "code" "a = 1"; Cell "code" "1/0"; Cell "code" "b = a + 1"].
Definition doc_magic : list cell :=
  [Cell "code" "get_ipython().user_ns['x'] = 1"; Cell "code" "a = 1"].
Definition doc_text : list cell :=
  [Cell "markdown" "# title"; Cell "raw" "a = 1"].

Definition files : gmap string file :=
  <["ab.ipynb" := Notebook doc_ab]>
    (<["fail.ipynb" := Notebook doc_fail]>
       (<["magic.ipynb" := Notebook doc_magic]>
          (<["text.ipynb" := Notebook doc_text]>
             (<["d1/my nb.ipynb" := Notebook []]>
                (<["d2/my_nb.ipynb" := Notebook []]>
                   (<["a/nb.ipynb" := Notebook []]>
                      (<["a/b/nb.ipynb" := Notebook []]> ∅))))))).

(** The interactive session: its namespace is dictionary 1. *)
Definition main_ns : gmap string value := <["y" := VInt 7]> ∅.
Definition w0 : world :=
  World files (<[1%positive := main_ns]> ∅) ∅ 1%positive [] 0.

Definition loader0 : NotebookLoader := Loader 0 None.

End Sample.


(** ** Auxiliary definitions *)

(** The line that [load_module] prints. *)
Definition importing (path : option string) : string :=
  "importing Jupyter notebook from " ++ str_of_path path.

(** The finder and the state after a sequence of calls. *)
Fixpoint after_calls (self : NotebookFinder) (w : world)
    (calls : list find_call) : NotebookFinder * world :=
  match calls with
  | [] => (self, w)
  | c :: cs =>
      let '(self', w', _) :=
        find_module self (call_name c) (call_path c) (set_fs (call_fs c) w) in
      after_calls self' w' cs
  end.

(** The cached loaders were all created before now, and no instance is
    cached under two keys. *)
Definition finder_ok (self : NotebookFinder) (w : world) : Prop :=
  (forall k l, loaders self !! k = Some l -> loader_id l < next_loader w) /\
  (forall k1 k2 l1 l2,
     loaders self !! k1 = Some l1 -> loaders self !! k2 = Some l2 ->
     loader_id l1 = loader_id l2 -> k1 = k2).

(** Case analysis on the statement the sample interpreter runs. *)
Ltac sample_exec_cases :=
  unfold Sample.exec;
  repeat match goal with
    | |- context [if ?b then _ else _] => destruct b
    | |- context [match ?o with Some _ => _ | None => _ end] => destruct o
    | |- context [match ?v with VNone => _ | _ => _ end] => destruct v
    end; cbn [fst snd].

(** ** Predicates used by the further properties *)

Fixpoint has_dot (s : string) : bool :=
  match s with
  | EmptyString => false
  | String c r => (Ascii.eqb c dot || has_dot r)%bool
  end.

Fixpoint has_slash (s : string) : bool :=
  match s with
  | EmptyString => false
  | String c r => (Ascii.eqb c slash || has_slash r)%bool
  end.

(** A search path none of whose directories contains the separator. *)
Definition simple_path (path : option (list string)) : bool :=
  match path with
  | None => true
  | Some ds => forallb (fun d => negb (has_slash d)) ds
  end.

(** Executed code writes nothing to standard output. *)
Definition keeps_stdout
    (exec : string -> loc -> loc -> world -> world * option exn) : Prop :=
  forall code g l w, stdout (exec code g l w).1 = stdout w.

(** Every cached loader sits under the key of its own [self.path]. *)
Definition finder_keyed (self : NotebookFinder) : Prop :=
  forall k l, loaders self !! k = Some l ->
    dict_key (key_of_path (loader_path l)) = Return k.

(** Every cached loader is bound to a search path without separators. *)
Definition finder_simple (self : NotebookFinder) : Prop :=
  forall k l, loaders self !! k = Some l ->
    simple_path (loader_path l) = true.

(** The sample interpreter, run with [shell.user_ns] set to the globals
    it is given. *)
Definition sample_exec_in_globals (code : string) (globals locals : loc)
    (w : world) : world * option exn :=
  Sample.exec code globals locals (set_user_ns globals w).

(** * Properties *)

(** ** Strings *)

Lemma replace_underscores_app (s t : string) :
  replace_underscores (s ++ t) = replace_underscores s ++ replace_underscores t.
Proof.
  induction s as [|c s IH]; simpl; [reflexivity|]. now rewrite IH.
Qed.

Lemma replace_underscores_id (s : string) :
  has_underscore s = false -> replace_underscores s = s.
Proof.
  induction s as [|c s IH]; simpl; [reflexivity|].
  intros H. apply orb_false_iff in H as [Hc Hs].
  rewrite Hc, IH by assumption. reflexivity.
Qed.

Lemma startswith_sep_replace (s : string) :
  startswith_sep (replace_underscores s) = startswith_sep s.
Proof.
  destruct s as [|c s]; simpl; [reflexivity|].
  destruct (Ascii.eqb c underscore) eqn:E; [|reflexivity].
  apply Ascii.eqb_eq in E. subst c. reflexivity.
Qed.

Lemma startswith_sep_app (s t : string) :
  s <> "" -> startswith_sep (s ++ t) = startswith_sep s.
Proof. destruct s; simpl; congruence. Qed.

(** When the directory has no underscore, replacing the underscores of the
    joined path replaces those of the file name only. *)
Lemma replace_underscores_join (d b : string) :
  has_underscore d = false ->
  replace_underscores (os_path_join d b) =
  os_path_join d (replace_underscores b).
Proof.
  intros Hd. unfold os_path_join.
  rewrite startswith_sep_replace.
  destruct (startswith_sep b); [reflexivity|].
  destruct (String.eqb d "" || endswith_sep d)%bool;
    rewrite !replace_underscores_app, (replace_underscores_id d Hd);
    reflexivity.
Qed.

Lemma fallback_candidate_eq (name d : string) :
  has_underscore d = false ->
  replace_underscores (primary_candidate name d) = fallback_candidate name d.
Proof.
  intros Hd. unfold primary_candidate, fallback_candidate.
  rewrite replace_underscores_join by assumption.
  now rewrite replace_underscores_app.
Qed.

(** ** [find_notebook] *)

Lemma find_in_dirs_None (fs : gmap string file) (name : string)
    (dirs : list string) :
  (forall d, In d dirs ->
     isfile fs (primary_candidate name d) = false /\
     isfile fs (replace_underscores (primary_candidate name d)) = false) ->
  find_in_dirs fs name dirs = None.
Proof.
  induction dirs as [|d ds IH]; intros H; simpl; [reflexivity|].
  destruct (H d (or_introl eq_refl)) as [H1 H2].
  unfold primary_candidate in H1, H2. rewrite H1, H2.
  apply IH. intros d' Hd'. apply H. now right.
Qed.

Lemma find_in_dirs_candidates (fs : gmap string file) (name : string)
    (dirs : list string) :
  Forall (fun d => has_underscore d = false) dirs ->
  find_in_dirs fs name dirs = List.find (isfile fs) (candidates name dirs).
Proof.
  induction 1 as [|d ds Hd _ IH]; simpl; [reflexivity|].
  fold (primary_candidate name d).
  rewrite (fallback_candidate_eq name d Hd).
  destruct (isfile fs (primary_candidate name d)); [reflexivity|].
  destruct (isfile fs (fallback_candidate name d)); [reflexivity|].
  exact IH.
Qed.

(** An empty list of directories and no list at all are searched alike. *)
Lemma find_notebook_empty_path (fs : gmap string file) (fullname : string) :
  find_notebook fs fullname (Some []) = find_notebook fs fullname None.
Proof. reflexivity. Qed.

(** A path that [find_notebook] returns names a regular file. *)
Lemma find_in_dirs_isfile (fs : gmap string file) (name : string)
    (dirs : list string) (p : string) :
  find_in_dirs fs name dirs = Some p -> isfile fs p = true.
Proof.
  induction dirs as [|d ds IH]; simpl; [discriminate|].
  destruct (isfile fs (os_path_join d (name ++ ".ipynb"))) eqn:E1.
  { intros [= <-]. exact E1. }
  destruct (isfile fs (replace_underscores
                         (os_path_join d (name ++ ".ipynb")))) eqn:E2.
  { intros [= <-]. exact E2. }
  exact IH.
Qed.

Lemma os_path_join_nonempty (d name : string) :
  os_path_join d (name ++ ".ipynb") <> "".
Proof.
  unfold os_path_join.
  assert (Hb : name ++ ".ipynb" <> "") by (destruct name; discriminate).
  assert (Happ : forall a b : string, b <> "" -> a ++ b <> "").
  { intros a b Hn. destruct a; simpl; [exact Hn|discriminate]. }
  destruct (startswith_sep _); [exact Hb|].
  destruct (_ || _)%bool; apply Happ; [exact Hb|].
  discriminate.
Qed.

Lemma replace_underscores_nonempty (s : string) :
  s <> "" -> replace_underscores s <> "".
Proof. destruct s; simpl; [congruence|discriminate]. Qed.

Lemma find_in_dirs_nonempty (fs : gmap string file) (name : string)
    (dirs : list string) (p : string) :
  find_in_dirs fs name dirs = Some p -> p <> "".
Proof.
  induction dirs as [|d ds IH]; simpl; [discriminate|].
  destruct (isfile fs (os_path_join d (name ++ ".ipynb"))).
  { intros [= <-]. apply os_path_join_nonempty. }
  destruct (isfile fs (replace_underscores _)).
  { intros [= <-]. apply replace_underscores_nonempty, os_path_join_nonempty. }
  exact IH.
Qed.

(** [not nb_path] holds exactly when [find_notebook] returned [None]. *)
Lemma not_path_find_notebook (fs : gmap string file) (fullname : string)
    (path : option (list string)) :
  not_path (find_notebook fs fullname path) =
  bool_decide (find_notebook fs fullname path = None).
Proof.
  destruct (find_notebook fs fullname path) as [p|] eqn:E; simpl.
  - apply find_in_dirs_nonempty, String.eqb_neq in E.
    rewrite E. reflexivity.
  - reflexivity.
Qed.

(** ** The loader *)

Section LoaderFacts.

Variable transform_cell : string -> string.
Variable exec : string -> loc -> loc -> world -> world * option exn.

Local Abbreviation exec_cells := (exec_cells transform_cell exec).
Local Abbreviation load_module := (load_module transform_cell exec).

(** The loop over the cells runs the transformed [code] cells and
    nothing else. *)
Lemma exec_cells_run_fragments (cells : list cell) (m : loc) (w : world) :
  exec_cells cells m w =
  run_fragments exec (code_fragments transform_cell cells) m w.
Proof.
  revert w. induction cells as [|c cs IH]; intros w; [reflexivity|].
  unfold code_fragments in *. simpl.
  destruct (String.eqb (cell_type c) "code"); simpl; [|apply IH].
  destruct (exec _ m m w) as [w' [e|]]; [reflexivity|apply IH].
Qed.

Lemma exec_cells_no_code (cells : list cell) (m : loc) (w : world) :
  Forall (fun c => cell_type c <> "code") cells ->
  exec_cells cells m w = (w, None).
Proof.
  induction 1 as [|c cs Hc _ IH]; simpl; [reflexivity|].
  apply String.eqb_neq in Hc. rewrite Hc. exact IH.
Qed.

(** The loop stops at the first fragment that raises, in the state that
    fragment left. *)
Lemma exec_cells_raises (pre post : list cell) (c : cell) (m : loc)
    (w wp wf : world) (e : exn) :
  exec_cells pre m w = (wp, None) ->
  cell_type c = "code" ->
  exec (transform_cell (source c)) m m wp = (wf, Some e) ->
  exec_cells (pre ++ c :: post) m w = (wf, Some e).
Proof.
  intros Hpre Hc He. revert w Hpre.
  induction pre as [|p pre IH]; intros w Hpre; simpl in *.
  - injection Hpre as ->. rewrite Hc. simpl. now rewrite He.
  - destruct (String.eqb (cell_type p) "code"); [|now apply IH].
    destruct (exec _ m m w) as [w' [e'|]]; [discriminate|now apply IH].
Qed.

(** What every executed text preserves, the loop preserves. *)
Lemma exec_cells_invariant (P : world -> Prop) (cells : list cell)
    (m : loc) (w : world) :
  (forall code w0, P w0 -> P (exec code m m w0).1) ->
  P w -> P (exec_cells cells m w).1.
Proof.
  intros Hstep. revert w.
  induction cells as [|c cs IH]; intros w Hw; simpl; [exact Hw|].
  destruct (String.eqb (cell_type c) "code"); [|now apply IH].
  pose proof (Hstep (transform_cell (source c)) w Hw) as H1.
  destruct (exec _ m m w) as [w' [e|]]; simpl in *; [exact H1|now apply IH].
Qed.

Lemma create_module_fst (self : NotebookLoader) (fullname path : string)
    (w : world) :
  (create_module self fullname path w).1 = fresh (dom (heap w)).
Proof. reflexivity. Qed.

Lemma create_module_registered (self : NotebookLoader)
    (fullname path : string) (w : world) (m : loc) (w1 : world) :
  create_module self fullname path w = (m, w1) ->
  sys_modules w1 !! fullname = Some m.
Proof. intros [= <- <-]. simpl. apply lookup_insert_eq. Qed.

Lemma create_module_seeded (self : NotebookLoader)
    (fullname path : string) (w : world) (m : loc) (w1 : world) :
  create_module self fullname path w = (m, w1) ->
  exists d, heap w1 !! m = Some d /\
    d !! "get_ipython" = Some get_ipython /\
    d !! "__file__" = Some (VStr path) /\
    d !! "__loader__" = Some (VLoader (loader_id self)) /\
    d !! "__name__" = Some (VStr fullname).
Proof.
  intros [= <- <-]. simpl. eexists. split; [apply lookup_insert_eq|].
  repeat split; reflexivity.
Qed.

Lemma create_module_user_ns (self : NotebookLoader)
    (fullname path : string) (w : world) :
  user_ns (create_module self fullname path w).2 = user_ns w.
Proof. reflexivity. Qed.

(** The module is a new object: dictionaries that exist keep their
    contents. *)
Lemma create_module_heap_other (self : NotebookLoader)
    (fullname path : string) (w : world) (x : loc) :
  is_Some (heap w !! x) ->
  x <> (create_module self fullname path w).1 /\
  heap (create_module self fullname path w).2 !! x = heap w !! x.
Proof.
  intros Hx. simpl.
  assert (Hne : x <> fresh (dom (heap w))).
  { intros ->. apply elem_of_dom in Hx. now apply is_fresh in Hx. }
  split; [exact Hne|]. now apply lookup_insert_ne.
Qed.

(** [load_module] when the notebook is found and read: the module is
    created and registered, the cells are executed with the module's
    namespace as the shell's user namespace, and the saved namespace is
    put back whichever way the loop ended. *)
Lemma load_module_found (self : NotebookLoader) (fullname : string)
    (w : world) (path : string) (cells : list cell) :
  find_notebook (fs w) fullname (loader_path self) = Some path ->
  fs w !! path = Some (Notebook cells) ->
  let mw := create_module self fullname path
              (print (importing (Some path)) w) in
  let r := exec_cells cells mw.1 (set_user_ns mw.1 mw.2) in
  load_module self fullname w =
  (set_user_ns (user_ns w) r.1,
   match r.2 with Some e => Raise e | None => Return mw.1 end).
Proof.
  intros Hfind Hfile. unfold load_module. rewrite Hfind.
  unfold open_and_read. simpl fs. rewrite Hfile. simpl nb_cells. cbv zeta.
  unfold importing. simpl str_of_path.
  destruct (create_module _ _ _ _) as [m w1] eqn:Hc.
  assert (Hns : user_ns w1 = user_ns w).
  { change w1 with (m, w1).2. rewrite <- Hc. reflexivity. }
  rewrite Hns. simpl.
  destruct (exec_cells cells m (set_user_ns m w1)) as [w2 [e|]];
    reflexivity.
Qed.

(** [load_module] when no notebook is found: [io.open(None)] raises
    after the message is printed. *)
Lemma load_module_not_found (self : NotebookLoader) (fullname : string)
    (w : world) :
  find_notebook (fs w) fullname (loader_path self) = None ->
  load_module self fullname w =
  (print (importing None) w, Raise open_None_error).
Proof. intros Hfind. unfold load_module. rewrite Hfind. reflexivity. Qed.

(** A load that returns has found its notebook and read its cells. *)
Lemma load_module_returns_inv (self : NotebookLoader) (fullname : string)
    (w w' : world) (m : loc) :
  load_module self fullname w = (w', Return m) ->
  exists path cells,
    find_notebook (fs w) fullname (loader_path self) = Some path /\
    fs w !! path = Some (Notebook cells).
Proof.
  intros Hload.
  destruct (find_notebook (fs w) fullname (loader_path self)) as [p|] eqn:Hf.
  2:{ now rewrite (load_module_not_found _ _ _ Hf) in Hload. }
  exists p. unfold load_module in Hload. rewrite Hf in Hload.
  unfold open_and_read in Hload. simpl fs in Hload.
  destruct (fs w !! p) as [[e|cells]|]; simpl in Hload; try discriminate.
  eauto.
Qed.

Lemma load_module_user_ns (self : NotebookLoader) (fullname : string)
    (w : world) :
  user_ns (load_module self fullname w).1 = user_ns w.
Proof.
  unfold load_module.
  destruct (open_and_read _ _) as [cells|e]; [|reflexivity].
  destruct (create_module _ _ _ _) as [m w1] eqn:Hc.
  assert (Hns : user_ns w1 = user_ns w).
  { change w1 with (m, w1).2. rewrite <- Hc. reflexivity. }
  destruct (exec_cells cells m (set_user_ns m w1)) as [w2 [e|]];
    simpl; exact Hns.
Qed.

Lemma load_module_saved_ns_contents (self : NotebookLoader)
    (fullname : string) (w : world) :
  is_Some (heap w !! user_ns w) ->
  writes_only_scopes exec -> keeps_user_ns exec ->
  heap (load_module self fullname w).1 !! user_ns w = heap w !! user_ns w.
Proof.
  intros Hlive Hframe Hkeep. unfold load_module.
  destruct (open_and_read _ _) as [cells|e]; [|reflexivity].
  set (w0 := print _ w).
  destruct (create_module_heap_other self fullname
              (str_of_path (find_notebook (fs w) fullname (loader_path self)))
              w0 (user_ns w) Hlive) as [Hne Hsame].
  destruct (create_module _ _ _ _) as [m w1] eqn:Hc. simpl in Hne, Hsame.
  pose proof (exec_cells_invariant
    (fun w' => user_ns w' = m /\ heap w' !! user_ns w = heap w !! user_ns w)
    cells m (set_user_ns m w1)) as Hinv.
  destruct (exec_cells cells m (set_user_ns m w1)) as [w2 r]. simpl in Hinv.
  assert (H2 : heap w2 !! user_ns w = heap w !! user_ns w).
  { apply Hinv; [|split; [reflexivity|exact Hsame]].
    intros code w3 [Hu Hh]. split.
    - now rewrite Hkeep.
    - rewrite Hframe; [exact Hh|exact Hne|]. rewrite Hu. exact Hne. }
  destruct r; exact H2.
Qed.

End LoaderFacts.

(** ** The finder *)

Lemma new_finder_ok (w : world) : finder_ok new_finder w.
Proof.
  split; intros *; simpl; rewrite lookup_empty; discriminate.
Qed.

Lemma finder_ok_set_fs (self : NotebookFinder) (w : world)
    (files : gmap string file) :
  finder_ok self w -> finder_ok self (set_fs files w).
Proof. intros H. exact H. Qed.

Lemma dict_key_inj (a b : cache_key) (ka kb : option string) :
  dict_key a = Return ka -> dict_key b = Return kb ->
  (a = b <-> ka = kb).
Proof.
  destruct a, b; simpl; intros Ha Hb; try discriminate;
    injection Ha as <-; injection Hb as <-;
    split; intros H; try discriminate; try reflexivity; congruence.
Qed.

(** When no notebook is found the finder declines and nothing changes. *)
Lemma find_module_declines (self : NotebookFinder) (fullname : string)
    (path : option (list string)) (w : world) :
  find_notebook (fs w) fullname path = None ->
  find_module self fullname path w = (self, w, Return None).
Proof. intros H. unfold find_module. rewrite H. reflexivity. Qed.

(** One call keeps the cache well formed, only adds to it, and a loader
    it returns is the one cached under the key of the call's path. *)
Lemma find_module_step (self : NotebookFinder) (fullname : string)
    (path : option (list string)) (w : world)
    (self' : NotebookFinder) (w' : world)
    (r : outcome (option NotebookLoader)) :
  finder_ok self w ->
  find_module self fullname path w = (self', w', r) ->
  finder_ok self' w' /\
  loaders self ⊆ loaders self' /\
  (forall l, r = Return (Some l) ->
     exists k, dict_key (key_of_path path) = Return k /\
               loaders self' !! k = Some l).
Proof.
  intros [Hlt Hinj]. unfold find_module.
  destruct (not_path _).
  { intros [= <- <- <-]. repeat split; try assumption; [done|].
    intros l [=]. }
  destruct (dict_key (key_of_path path)) as [k|e] eqn:Hk.
  2:{ intros [= <- <- <-]. repeat split; try assumption; [done|].
      intros l [=]. }
  destruct (loaders self !! k) as [l0|] eqn:Hl0.
  { intros [= <- <- <-]. repeat split; try assumption; [done|].
    intros l [= <-]. eauto. }
  intros [= <- <- <-]. unfold finder_ok. cbn [loaders].
  change (next_loader (bump_loader w)) with (S (next_loader w)).
  split; [split|split].
  - intros k1 l1. rewrite lookup_insert. case_decide.
    + intros [= <-]. cbn. lia.
    + intros H1. apply Hlt in H1. lia.
  - intros k1 k2 l1 l2. rewrite !lookup_insert.
    repeat case_decide; subst.
    + reflexivity.
    + intros [= <-] H2 Hid. cbn in Hid. apply Hlt in H2. lia.
    + intros H1 [= <-] Hid. cbn in Hid. apply Hlt in H1. lia.
    + apply Hinj.
  - now apply insert_subseteq.
  - intros l [= <-]. exists k. split; [reflexivity|apply lookup_insert_eq].
Qed.

Lemma after_calls_ok (calls : list find_call) (self : NotebookFinder)
    (w : world) :
  finder_ok self w ->
  finder_ok (after_calls self w calls).1 (after_calls self w calls).2 /\
  loaders self ⊆ loaders (after_calls self w calls).1.
Proof.
  revert self w. induction calls as [|c cs IH]; intros self w Hok; simpl.
  { split; [exact Hok|done]. }
  destruct (find_module self _ _ _) as [[self' w'] r] eqn:Hstep.
  destruct (find_module_step _ _ _ _ _ _ _
              (finder_ok_set_fs _ _ (call_fs c) Hok) Hstep)
    as (Hok' & Hsub & _).
  destruct (IH self' w' Hok') as [Hfin Hsub'].
  split; [exact Hfin|]. etrans; eassumption.
Qed.

(** A loader returned by some call of the sequence is still cached, under
    the key of that call's path, when the sequence ends. *)
Lemma find_modules_cached (calls : list find_call) (self : NotebookFinder)
    (w : world) (i : nat) (c : find_call) (l : NotebookLoader) :
  finder_ok self w ->
  calls !! i = Some c ->
  find_modules self w calls !! i = Some (Return (Some l)) ->
  exists k, dict_key (key_of_path (call_path c)) = Return k /\
            loaders (after_calls self w calls).1 !! k = Some l.
Proof.
  revert self w i. induction calls as [|c0 cs IH]; intros self w i Hok;
    [now rewrite lookup_nil|].
  simpl.
  destruct (find_module self _ _ _) as [[self' w'] r] eqn:Hstep.
  destruct (find_module_step _ _ _ _ _ _ _
              (finder_ok_set_fs _ _ (call_fs c0) Hok) Hstep)
    as (Hok' & _ & Hret).
  destruct i as [|i]; simpl.
  - intros [= <-] [= ->].
    destruct (Hret l eq_refl) as (k & Hk & Hl).
    exists k. split; [exact Hk|].
    destruct (after_calls_ok cs self' w' Hok') as [_ Hsub].
    eapply lookup_weaken; eassumption.
  - now apply IH.
Qed.

(** ** The sample interpreter *)

Lemma sample_bind_heap_other (l x : loc) (k : string) (v : value)
    (w : world) :
  x <> l -> heap (Sample.bind l k v w) !! x = heap w !! x.
Proof.
  intros Hne. unfold Sample.bind.
  destruct (heap w !! l); [|reflexivity].
  simpl. now apply lookup_insert_ne.
Qed.

Lemma sample_bind_user_ns (l : loc) (k : string) (v : value) (w : world) :
  user_ns (Sample.bind l k v w) = user_ns w.
Proof. unfold Sample.bind. now destruct (heap w !! l). Qed.

Lemma sample_bind_sys_modules (l : loc) (k : string) (v : value)
    (w : world) :
  sys_modules (Sample.bind l k v w) = sys_modules w.
Proof. unfold Sample.bind. now destruct (heap w !! l). Qed.

Lemma sample_exec_writes_only_scopes : writes_only_scopes Sample.exec.
Proof.
  intros code g l w x Hl Hu. sample_exec_cases;
    try reflexivity; now apply sample_bind_heap_other.
Qed.

Lemma sample_exec_keeps_user_ns : keeps_user_ns Sample.exec.
Proof.
  intros code g l w. sample_exec_cases;
    try reflexivity; apply sample_bind_user_ns.
Qed.

Lemma sample_exec_keeps_registered (name : string) :
  keeps_registered Sample.exec name.
Proof.
  intros code g l w. sample_exec_cases;
    try reflexivity; now rewrite sample_bind_sys_modules.
Qed.

(** * The claims *)

(** C1. When the notebook of a module is found and read and the load
    succeeds, the module returned is the one created for this load, and
    its namespace is what results from executing, in that namespace as
    both global and local scope, the transformed texts of exactly the
    cells of type [code], in document order, each once; cells of any
    other type are not executed. *)
Theorem load_module_runs_code_fragments
    (transform_cell : string -> string)
    (exec : string -> loc -> loc -> world -> world * option exn)
    (self : NotebookLoader) (fullname : string) (w w' : world) (m : loc) :
  load_module transform_cell exec self fullname w = (w', Return m) ->
  exists path cells w1 w2,
    find_notebook (fs w) fullname (loader_path self) = Some path /\
    fs w !! path = Some (Notebook cells) /\
    create_module self fullname path (print (importing (Some path)) w)
      = (m, w1) /\
    run_fragments exec (code_fragments transform_cell cells) m
      (set_user_ns m w1) = (w2, None) /\
    w' = set_user_ns (user_ns w) w2 /\
    heap w' !! m = heap w2 !! m.
Proof.
  intros Hload.
  destruct (load_module_returns_inv _ _ _ _ _ _ _ Hload)
    as (path & cells & Hfind & Hfile).
  rewrite (load_module_found _ _ _ _ _ _ _ Hfind Hfile) in Hload.
  cbv zeta in Hload. rewrite exec_cells_run_fragments in Hload.
  destruct (create_module _ _ _ _) as [m0 w1] eqn:Hc. simpl in Hload.
  destruct (run_fragments _ _ _ _) as [w2 [e|]] eqn:Hrun; simpl in Hload;
    [discriminate|].
  injection Hload as <- <-.
  exists path, cells, w1, w2. repeat split; assumption.
Qed.

Lemma load_module_runs_code_fragments_witness :
  exists path cells w1 w2,
    find_notebook (fs Sample.w0) "ab" (loader_path Sample.loader0)
      = Some path /\
    fs Sample.w0 !! path = Some (Notebook cells) /\
    create_module Sample.loader0 "ab" path
      (print (importing (Some path)) Sample.w0) = (2%positive, w1) /\
    run_fragments Sample.exec
      (code_fragments Sample.transform_cell cells) 2%positive
      (set_user_ns 2%positive w1) = (w2, None) /\
    (load_module Sample.transform_cell Sample.exec Sample.loader0 "ab"
       Sample.w0).1 = set_user_ns (user_ns Sample.w0) w2 /\
    heap (load_module Sample.transform_cell Sample.exec Sample.loader0 "ab"
            Sample.w0).1 !! 2%positive = heap w2 !! 2%positive.
Proof.
  apply (load_module_runs_code_fragments Sample.transform_cell Sample.exec
           Sample.loader0 "ab" Sample.w0).
  vm_compute; reflexivity.
Defined.

(** The sample notebook [a = 1], a markdown cell, [b = a + 1] gives a
    module with [a = 1] and [b = 2]. *)
Example load_ab_namespace :
  let r := load_module Sample.transform_cell Sample.exec Sample.loader0 "ab"
             Sample.w0 in
  r.2 = Return 2%positive /\
  (heap r.1 !! 2%positive ≫= fun d => d !! "a") = Some (VInt 1) /\
  (heap r.1 !! 2%positive ≫= fun d => d !! "b") = Some (VInt 2).
Proof. vm_compute. repeat split; reflexivity. Qed.

(** Only the two cells of type [code] of that notebook are executed. *)
Example code_fragments_ab :
  code_fragments Sample.transform_cell Sample.doc_ab = ["a = 1"; "b = a + 1"].
Proof. reflexivity. Qed.

(** With the cells in the opposite order the load fails: [a] is read
    before it is bound. *)
Example load_ba_fails :
  (load_module Sample.transform_cell Sample.exec Sample.loader0 "ba"
     (set_fs (<["ba.ipynb" := Notebook (rev Sample.doc_ab)]> ∅) Sample.w0)).2
  = Raise (Sample.name_error "a").
Proof. vm_compute. reflexivity. Qed.

(** C2. Every call of [load_module], however it ends, leaves
    [shell.user_ns] bound to the namespace it was bound to before the
    call; and when executed code writes only to its own scope and to the
    shell's current user namespace, the contents of that namespace are
    unchanged too. *)
Theorem load_module_restores_user_ns
    (transform_cell : string -> string)
    (exec : string -> loc -> loc -> world -> world * option exn)
    (self : NotebookLoader) (fullname : string) (w : world) :
  user_ns (load_module transform_cell exec self fullname w).1 = user_ns w /\
  (is_Some (heap w !! user_ns w) ->
   writes_only_scopes exec -> keeps_user_ns exec ->
   heap (load_module transform_cell exec self fullname w).1 !! user_ns w
   = heap w !! user_ns w).
Proof.
  split.
  - apply load_module_user_ns.
  - apply load_module_saved_ns_contents.
Qed.

Lemma load_module_restores_user_ns_witness :
  is_Some (heap Sample.w0 !! user_ns Sample.w0) /\
  writes_only_scopes Sample.exec /\ keeps_user_ns Sample.exec /\
  user_ns (load_module Sample.transform_cell Sample.exec Sample.loader0
             "magic" Sample.w0).1 = 1%positive /\
  heap (load_module Sample.transform_cell Sample.exec Sample.loader0
          "magic" Sample.w0).1 !! 1%positive = Some Sample.main_ns.
Proof.
  assert (Hlive : is_Some (heap Sample.w0 !! user_ns Sample.w0)).
  { vm_compute. eexists. reflexivity. }
  destruct (load_module_restores_user_ns Sample.transform_cell Sample.exec
              Sample.loader0 "magic" Sample.w0) as [Hptr Hdict].
  split; [exact Hlive|].
  split; [exact sample_exec_writes_only_scopes|].
  split; [exact sample_exec_keeps_user_ns|].
  split; [exact Hptr|].
  exact (Hdict Hlive sample_exec_writes_only_scopes
           sample_exec_keeps_user_ns).
Defined.

(** The user namespace is put back when a fragment raises, too. *)
Example load_fail_restores_user_ns :
  let r := load_module Sample.transform_cell Sample.exec Sample.loader0
             "fail" Sample.w0 in
  r.2 = Raise Sample.zero_division /\ user_ns r.1 = 1%positive /\
  heap r.1 !! 1%positive = Some Sample.main_ns.
Proof. vm_compute. repeat split; reflexivity. Qed.

(** C3. The module is in [sys.modules] before the first cell is executed,
    and when a fragment raises, the state is left as that fragment left it,
    with only [shell.user_ns] put back: nothing is removed from
    [sys.modules] and the module keeps what earlier fragments bound.  So
    when executed code leaves the module's entry of [sys.modules] alone,
    the failing fragment ran with the module registered and the module is
    still registered after the failed load. *)
Theorem failed_load_keeps_module_registered
    (transform_cell : string -> string)
    (exec : string -> loc -> loc -> world -> world * option exn)
    (self : NotebookLoader) (fullname : string) (w : world)
    (path : string) (pre post : list cell) (c : cell)
    (m : loc) (w1 wp wf : world) (e : exn) :
  find_notebook (fs w) fullname (loader_path self) = Some path ->
  fs w !! path = Some (Notebook (pre ++ c :: post)) ->
  create_module self fullname path (print (importing (Some path)) w)
    = (m, w1) ->
  exec_cells transform_cell exec pre m (set_user_ns m w1) = (wp, None) ->
  cell_type c = "code" ->
  exec (transform_cell (source c)) m m wp = (wf, Some e) ->
  sys_modules (set_user_ns m w1) !! fullname = Some m /\
  load_module transform_cell exec self fullname w
    = (set_user_ns (user_ns w) wf, Raise e) /\
  sys_modules (load_module transform_cell exec self fullname w).1
    = sys_modules wf /\
  heap (load_module transform_cell exec self fullname w).1 = heap wf /\
  (keeps_registered exec fullname ->
   sys_modules wp !! fullname = Some m /\
   sys_modules (load_module transform_cell exec self fullname w).1
     !! fullname = Some m).
Proof.
  intros Hfind Hfile Hc Hpre Hcode Hexec.
  pose proof (create_module_registered _ _ _ _ _ _ Hc) as Hreg.
  assert (Hload : load_module transform_cell exec self fullname w
                  = (set_user_ns (user_ns w) wf, Raise e)).
  { rewrite (load_module_found _ _ _ _ _ _ _ Hfind Hfile). cbv zeta.
    rewrite Hc. cbn [fst snd].
    rewrite (exec_cells_raises _ _ _ _ _ _ _ _ _ _ Hpre Hcode Hexec).
    reflexivity. }
  assert (Hwp : keeps_registered exec fullname ->
                sys_modules wp !! fullname = Some m).
  { intros Hkeep.
    pose proof (exec_cells_invariant transform_cell exec
      (fun w' => sys_modules w' !! fullname = Some m) pre m
      (set_user_ns m w1)) as Hinv.
    rewrite Hpre in Hinv. apply Hinv; [|exact Hreg].
    intros code w0 H0. now rewrite Hkeep. }
  rewrite Hload. cbn [fst].
  split; [exact Hreg|]. split; [reflexivity|].
  split; [reflexivity|]. split; [reflexivity|].
  intros Hkeep. split; [now apply Hwp|].
  cbn [sys_modules set_user_ns].
  change wf with (wf, Some e).1. rewrite <- Hexec, Hkeep. now apply Hwp.
Qed.

Lemma failed_load_keeps_module_registered_witness :
  sys_modules (load_module Sample.transform_cell Sample.exec Sample.loader0
                 "fail" Sample.w0).1 !! "fail" = Some 2%positive /\
  (heap (load_module Sample.transform_cell Sample.exec Sample.loader0
           "fail" Sample.w0).1 !! 2%positive ≫= fun d => d !! "a")
  = Some (VInt 1).
Proof.
  pose (w1 := (create_module Sample.loader0 "fail" "fail.ipynb"
                 (print (importing (Some "fail.ipynb")) Sample.w0)).2).
  pose (wp := (exec_cells Sample.transform_cell Sample.exec
                 [Cell "code" "a = 1"] 2%positive
                 (set_user_ns 2%positive w1)).1).
  destruct (failed_load_keeps_module_registered
              Sample.transform_cell Sample.exec Sample.loader0 "fail"
              Sample.w0 "fail.ipynb" [Cell "code" "a = 1"]
              [Cell "code" "b = a + 1"] (Cell "code" "1/0")
              2%positive w1 wp wp Sample.zero_division)
    as (_ & _ & _ & Hheap & Hreg);
    try (vm_compute; reflexivity).
  split.
  - apply Hreg, sample_exec_keeps_registered.
  - rewrite Hheap. vm_compute. reflexivity.
Defined.

(** C4, as the code has it.  When a fragment raises, [load_module] ends
    with that very exception: it is not caught, not replaced and not
    wrapped, so it carries no module name or fragment index beyond what
    the fragment itself put in it. *)
Theorem fragment_error_propagates_unchanged
    (transform_cell : string -> string)
    (exec : string -> loc -> loc -> world -> world * option exn)
    (self : NotebookLoader) (fullname : string) (w : world)
    (path : string) (pre post : list cell) (c : cell)
    (m : loc) (w1 wp wf : world) (e : exn) :
  find_notebook (fs w) fullname (loader_path self) = Some path ->
  fs w !! path = Some (Notebook (pre ++ c :: post)) ->
  create_module self fullname path (print (importing (Some path)) w)
    = (m, w1) ->
  exec_cells transform_cell exec pre m (set_user_ns m w1) = (wp, None) ->
  cell_type c = "code" ->
  exec (transform_cell (source c)) m m wp = (wf, Some e) ->
  (load_module transform_cell exec self fullname w).2 = Raise e.
Proof.
  intros Hfind Hfile Hc Hpre Hcode Hexec.
  rewrite (load_module_found _ _ _ _ _ _ _ Hfind Hfile). cbv zeta.
  rewrite Hc. cbn [fst snd].
  rewrite (exec_cells_raises _ _ _ _ _ _ _ _ _ _ Hpre Hcode Hexec).
  reflexivity.
Qed.

Lemma fragment_error_propagates_unchanged_witness :
  (load_module Sample.transform_cell Sample.exec Sample.loader0 "fail"
     Sample.w0).2 = Raise Sample.zero_division.
Proof.
  pose (w1 := (create_module Sample.loader0 "fail" "fail.ipynb"
                 (print (importing (Some "fail.ipynb")) Sample.w0)).2).
  pose (wp := (exec_cells Sample.transform_cell Sample.exec
                 [Cell "code" "a = 1"] 2%positive
                 (set_user_ns 2%positive w1)).1).
  apply (fragment_error_propagates_unchanged
           Sample.transform_cell Sample.exec Sample.loader0 "fail"
           Sample.w0 "fail.ipynb" [Cell "code" "a = 1"]
           [Cell "code" "b = a + 1"] (Cell "code" "1/0")
           2%positive w1 wp wp Sample.zero_division);
    vm_compute; reflexivity.
Defined.

(** C4, as stated, fails: the second fragment of the sample notebook
    raises [ZeroDivisionError], and the load ends with that exception, not
    with a [LoadError] that wraps it. *)
Lemma fragment_error_is_not_wrapped :
  (load_module Sample.transform_cell Sample.exec Sample.loader0 "fail"
     Sample.w0).2 = Raise Sample.zero_division /\
  ~ (exists e idx,
       (load_module Sample.transform_cell Sample.exec Sample.loader0 "fail"
          Sample.w0).2 = Raise e /\
       LoadError_wrapping e Sample.zero_division "fail" idx).
Proof.
  assert (H : (load_module Sample.transform_cell Sample.exec Sample.loader0
                 "fail" Sample.w0).2 = Raise Sample.zero_division)
    by (vm_compute; reflexivity).
  split; [exact H|].
  intros (e & idx & He & Hcls & _). rewrite H in He.
  injection He as <-. discriminate Hcls.
Qed.

(** C5, as the code has it.  With search directories that contain no
    underscore, [find_notebook] goes through the directories in the
    caller's order and tries, for each directory, first the candidate with
    the unmodified leaf name and then at once the candidate with the
    underscores of the leaf name replaced by spaces; it returns the first
    of these candidates that is a regular file, and [None] when none is.
    Nothing is stated here about the fallback candidate of a directory
    whose own name contains an underscore. *)
Theorem find_notebook_tries_each_directory_twice
    (fs : gmap string file) (fullname : string)
    (path : option (list string)) :
  Forall (fun d => has_underscore d = false) (effective_path path) ->
  find_notebook fs fullname path =
  List.find (isfile fs)
            (candidates (rsplit_last fullname) (effective_path path)).
Proof. intros H. unfold find_notebook. now apply find_in_dirs_candidates. Qed.

Lemma find_notebook_tries_each_directory_twice_witness :
  find_notebook Sample.files "pkg.my_nb" (Some ["d1"; "d2"]) =
  List.find (isfile Sample.files)
            (candidates (rsplit_last "pkg.my_nb")
                        (effective_path (Some ["d1"; "d2"]))).
Proof.
  apply (find_notebook_tries_each_directory_twice Sample.files "pkg.my_nb"
           (Some ["d1"; "d2"])).
  repeat constructor.
Defined.

(** C5, as stated, fails: with [d1/my nb.ipynb] and [d2/my_nb.ipynb]
    present, the code returns the fallback candidate of the first
    directory, although the second directory has the primary candidate. *)
Lemma find_notebook_prefers_earlier_fallback :
  find_notebook Sample.files "pkg.my_nb" (Some ["d1"; "d2"])
    = Some "d1/my nb.ipynb" /\
  locate_spec Sample.files "pkg.my_nb" (Some ["d1"; "d2"])
    = Some "d2/my_nb.ipynb" /\
  find_notebook Sample.files "pkg.my_nb" (Some ["d1"; "d2"])
    <> locate_spec Sample.files "pkg.my_nb" (Some ["d1"; "d2"]).
Proof.
  assert (H1 : find_notebook Sample.files "pkg.my_nb" (Some ["d1"; "d2"])
               = Some "d1/my nb.ipynb") by (vm_compute; reflexivity).
  assert (H2 : locate_spec Sample.files "pkg.my_nb" (Some ["d1"; "d2"])
               = Some "d2/my_nb.ipynb") by (vm_compute; reflexivity).
  split; [exact H1|]. split; [exact H2|].
  rewrite H1, H2. discriminate.
Qed.

(** C6, as the code has it.  Among the calls made on a new finder, two
    calls that both return a loader return the same instance when their
    search paths have the same cache key, in particular when the search
    paths are identical, and different instances when the cache keys
    differ.  The cache key of a non-empty search path is its
    separator-joined string. *)
Theorem find_module_same_loader_iff_same_key
    (w : world) (calls : list find_call) (i j : nat)
    (ci cj : find_call) (li lj : NotebookLoader) :
  calls !! i = Some ci -> calls !! j = Some cj ->
  find_modules new_finder w calls !! i = Some (Return (Some li)) ->
  find_modules new_finder w calls !! j = Some (Return (Some lj)) ->
  (call_path ci = call_path cj -> li = lj) /\
  (key_of_path (call_path ci) = key_of_path (call_path cj) -> li = lj) /\
  (key_of_path (call_path ci) <> key_of_path (call_path cj) ->
   loader_id li <> loader_id lj).
Proof.
  intros Hci Hcj Hri Hrj.
  destruct (find_modules_cached calls new_finder w i ci li
              (new_finder_ok w) Hci Hri) as (ki & Hki & Hli).
  destruct (find_modules_cached calls new_finder w j cj lj
              (new_finder_ok w) Hcj Hrj) as (kj & Hkj & Hlj).
  destruct (after_calls_ok calls new_finder w (new_finder_ok w))
    as [[_ Hinj] _].
  pose proof (dict_key_inj _ _ _ _ Hki Hkj) as Hkeys.
  assert (Hsame : key_of_path (call_path ci) = key_of_path (call_path cj)
                  -> li = lj).
  { intros Hk. apply Hkeys in Hk. subst kj. congruence. }
  split; [|split].
  - intros Hp. apply Hsame. now rewrite Hp.
  - exact Hsame.
  - intros Hne Hid. apply Hne, Hkeys. eapply Hinj; eassumption.
Qed.

Lemma find_module_same_loader_iff_same_key_witness :
  (Some ["a/b"] = Some ["a/b"] -> Loader 0 (Some ["a/b"])
                                 = Loader 0 (Some ["a/b"])) /\
  (key_of_path (Some ["a/b"]) = key_of_path (Some ["a/b"]) ->
   Loader 0 (Some ["a/b"]) = Loader 0 (Some ["a/b"])) /\
  (key_of_path None <> key_of_path (Some ["a/b"]) -> 1 <> 0).
Proof.
  pose (c1 := FindCall Sample.files "nb" (Some ["a/b"])).
  pose (c2 := FindCall Sample.files "ab" None).
  destruct (find_module_same_loader_iff_same_key Sample.w0 [c1; c2; c1]
              0 2 c1 c1 (Loader 0 (Some ["a/b"])) (Loader 0 (Some ["a/b"])))
    as (H1 & H2 & _); try (vm_compute; reflexivity).
  destruct (find_module_same_loader_iff_same_key Sample.w0 [c1; c2; c1]
              1 0 c2 c1 (Loader 1 None) (Loader 0 (Some ["a/b"])))
    as (_ & _ & H3); try (vm_compute; reflexivity).
  split; [exact H1|]. split; [exact H2|exact H3].
Defined.

(** C6, as stated, fails: the search paths [["a/b"]] and [["a"; "b"]]
    differ, yet the second call returns the loader made for the first. *)
Lemma find_module_shares_loader_across_paths :
  find_modules new_finder Sample.w0
    [FindCall Sample.files "nb" (Some ["a/b"]);
     FindCall Sample.files "nb" (Some ["a"; "b"])]
  = [Return (Some (Loader 0 (Some ["a/b"])));
     Return (Some (Loader 0 (Some ["a/b"])))] /\
  Some ["a/b"] <> Some ["a"; "b"].
Proof. split; [vm_compute; reflexivity|discriminate]. Qed.

(** C7. When neither candidate of any search directory is a regular file,
    [find_notebook] returns [None], and [find_module] returns [None]
    without raising and leaves the finder's cache, and everything else,
    as it was. *)
Theorem find_module_declines_when_not_found
    (self : NotebookFinder) (fullname : string)
    (path : option (list string)) (w : world) :
  (forall d, In d (effective_path path) ->
     isfile (fs w) (primary_candidate (rsplit_last fullname) d) = false /\
     isfile (fs w)
       (replace_underscores (primary_candidate (rsplit_last fullname) d))
     = false) ->
  find_notebook (fs w) fullname path = None /\
  find_module self fullname path w = (self, w, Return None).
Proof.
  intros H.
  assert (Hnone : find_notebook (fs w) fullname path = None)
    by now apply find_in_dirs_None.
  split; [exact Hnone|now apply find_module_declines].
Qed.

Lemma find_module_declines_when_not_found_witness :
  find_notebook (fs Sample.w0) "pkg.zz" (Some ["d1"; "a"]) = None /\
  find_module new_finder "pkg.zz" (Some ["d1"; "a"]) Sample.w0
  = (new_finder, Sample.w0, Return None).
Proof.
  apply (find_module_declines_when_not_found new_finder "pkg.zz"
           (Some ["d1"; "a"]) Sample.w0).
  intros d [<-|[<-|[]]]; vm_compute; split; reflexivity.
Defined.

(** An empty search path for which a notebook is found makes
    [find_module] raise: the key stays the list, which cannot be
    hashed. *)
Lemma find_module_empty_path (self : NotebookFinder) (fullname : string)
    (w : world) (p : string) :
  find_notebook (fs w) fullname (Some []) = Some p ->
  find_module self fullname (Some []) w = (self, w, Raise unhashable_list).
Proof.
  intros H. unfold find_module.
  rewrite not_path_find_notebook, H. reflexivity.
Qed.

(** C8.  The code at the failing input: [find_notebook] searches the
    current directory for an empty search path as for none, and
    [find_module] returns a loader when the search path is [None], but
    raises [TypeError] when it is the empty list. *)
Theorem find_module_empty_path_raises :
  find_notebook Sample.files "ab" (Some []) = Some "ab.ipynb" /\
  find_notebook Sample.files "ab" None = Some "ab.ipynb" /\
  (find_module new_finder "ab" None Sample.w0).2
    = Return (Some (Loader 0 None)) /\
  find_module new_finder "ab" (Some []) Sample.w0
    = (new_finder, Sample.w0, Raise unhashable_list).
Proof.
  split; [vm_compute; reflexivity|].
  split; [vm_compute; reflexivity|].
  split; [vm_compute; reflexivity|].
  apply (find_module_empty_path new_finder "ab" Sample.w0 "ab.ipynb").
  vm_compute; reflexivity.
Qed.

(** C9. The cells are executed starting from a state in which the new
    module's namespace already holds [get_ipython], together with
    [__file__] and [__loader__]; so a notebook without a cell of type
    [code] loads to a module whose namespace holds [get_ipython]. *)
Theorem load_module_seeds_get_ipython
    (transform_cell : string -> string)
    (exec : string -> loc -> loc -> world -> world * option exn)
    (self : NotebookLoader) (fullname : string) (w : world)
    (path : string) (cells : list cell) (m : loc) (w1 : world) :
  find_notebook (fs w) fullname (loader_path self) = Some path ->
  fs w !! path = Some (Notebook cells) ->
  create_module self fullname path (print (importing (Some path)) w)
    = (m, w1) ->
  (exists d, heap (set_user_ns m w1) !! m = Some d /\
     d !! "get_ipython" = Some get_ipython /\
     d !! "__file__" = Some (VStr path) /\
     d !! "__loader__" = Some (VLoader (loader_id self))) /\
  load_module transform_cell exec self fullname w
    = (set_user_ns (user_ns w)
         (exec_cells transform_cell exec cells m (set_user_ns m w1)).1,
       match (exec_cells transform_cell exec cells m (set_user_ns m w1)).2
       with Some e => Raise e | None => Return m end) /\
  (Forall (fun c => cell_type c <> "code") cells ->
   exists w' d,
     load_module transform_cell exec self fullname w = (w', Return m) /\
     heap w' !! m = Some d /\ d !! "get_ipython" = Some get_ipython).
Proof.
  intros Hfind Hfile Hc.
  destruct (create_module_seeded _ _ _ _ _ _ Hc)
    as (d & Hd & Hget & Hf & Hl & _).
  pose proof (load_module_found transform_cell exec _ _ _ _ _ Hfind Hfile)
    as Hload. cbv zeta in Hload. rewrite Hc in Hload. cbn [fst snd] in Hload.
  split; [|split].
  - exists d. repeat split; assumption.
  - exact Hload.
  - intros Hno. rewrite Hload, (exec_cells_no_code _ _ _ _ _ Hno).
    cbn [fst snd]. eexists _, d. split; [reflexivity|].
    split; assumption.
Qed.

Lemma load_module_seeds_get_ipython_witness :
  exists w' d,
    load_module Sample.transform_cell Sample.exec Sample.loader0 "text"
      Sample.w0 = (w', Return 2%positive) /\
    heap w' !! 2%positive = Some d /\
    d !! "get_ipython" = Some get_ipython.
Proof.
  pose (w1 := (create_module Sample.loader0 "text" "text.ipynb"
                 (print (importing (Some "text.ipynb")) Sample.w0)).2).
  destruct (load_module_seeds_get_ipython
              Sample.transform_cell Sample.exec Sample.loader0 "text"
              Sample.w0 "text.ipynb" Sample.doc_text 2%positive w1)
    as (_ & _ & H); try (vm_compute; reflexivity).
  apply H. repeat constructor; discriminate.
Defined.

(** C10. When [find_notebook] finds nothing for the loader's search path,
    [load_module] prints its message and raises from [io.open(None)]: no
    module is created, [sys.modules] and all dictionaries are as before,
    and no cell is executed. *)
Theorem load_module_not_found_raises_first
    (transform_cell : string -> string)
    (exec : string -> loc -> loc -> world -> world * option exn)
    (self : NotebookLoader) (fullname : string) (w : world) :
  find_notebook (fs w) fullname (loader_path self) = None ->
  load_module transform_cell exec self fullname w
    = (print (importing None) w, Raise open_None_error) /\
  sys_modules (load_module transform_cell exec self fullname w).1
    = sys_modules w /\
  heap (load_module transform_cell exec self fullname w).1 = heap w /\
  user_ns (load_module transform_cell exec self fullname w).1 = user_ns w.
Proof.
  intros Hfind.
  rewrite (load_module_not_found _ _ _ _ _ Hfind).
  repeat split; reflexivity.
Qed.

Lemma load_module_not_found_raises_first_witness :
  load_module Sample.transform_cell Sample.exec Sample.loader0 "nope"
    Sample.w0
    = (print (importing None) Sample.w0, Raise open_None_error) /\
  sys_modules (load_module Sample.transform_cell Sample.exec Sample.loader0
                 "nope" Sample.w0).1 = sys_modules Sample.w0 /\
  heap (load_module Sample.transform_cell Sample.exec Sample.loader0
          "nope" Sample.w0).1 = heap Sample.w0 /\
  user_ns (load_module Sample.transform_cell Sample.exec Sample.loader0
             "nope" Sample.w0).1 = user_ns Sample.w0.
Proof.
  apply (load_module_not_found_raises_first Sample.transform_cell
           Sample.exec Sample.loader0 "nope" Sample.w0).
  vm_compute; reflexivity.
Defined.

(** * Further properties *)

(** ** The leaf name *)

Lemma after_last_dot_None (s : string) :
  after_last_dot s = None <-> has_dot s = false.
Proof.
  induction s as [|c r IH]; simpl; [tauto|].
  destruct (after_last_dot r) as [l|].
  - split; [discriminate|]. intros H. apply orb_false_iff in H as [_ Hr].
    apply IH in Hr. discriminate.
  - destruct (Ascii.eqb c dot); simpl; [split; discriminate|].
    split; intros _; [now apply IH|reflexivity].
Qed.

Lemma after_last_dot_Some (s l : string) :
  after_last_dot s = Some l ->
  has_dot l = false /\ exists pkg, s = pkg ++ "." ++ l.
Proof.
  revert l. induction s as [|c r IH]; intros l; simpl; [discriminate|].
  destruct (after_last_dot r) as [l'|] eqn:Hr.
  - intros [= <-]. destruct (IH l' eq_refl) as [Hd [pkg ->]].
    split; [exact Hd|]. now exists (String c pkg).
  - destruct (Ascii.eqb c dot) eqn:Hc; [|discriminate].
    intros [= <-]. apply Ascii.eqb_eq in Hc. subst c.
    split; [now apply after_last_dot_None|]. now exists "".
Qed.

Lemma after_last_dot_app (pkg leaf : string) :
  has_dot leaf = false ->
  after_last_dot (pkg ++ "." ++ leaf) = Some leaf.
Proof.
  intros Hleaf. induction pkg as [|c pkg IH].
  - apply after_last_dot_None in Hleaf.
    change ("" ++ "." ++ leaf) with (String dot leaf).
    cbn [after_last_dot]. now rewrite Hleaf.
  - change (String c pkg ++ "." ++ leaf)
      with (String c (pkg ++ "." ++ leaf)).
    cbn [after_last_dot]. now rewrite IH.
Qed.

(** X1. The name [find_notebook] looks for never contains a dot: either
    the full name has no dot and is used whole, or the full name is some
    prefix, a dot, and the name used. *)
Theorem rsplit_last_spec (fullname : string) :
  has_dot (rsplit_last fullname) = false /\
  ((has_dot fullname = false /\ rsplit_last fullname = fullname) \/
   exists pkg, fullname = pkg ++ "." ++ rsplit_last fullname).
Proof.
  unfold rsplit_last.
  destruct (after_last_dot fullname) as [l|] eqn:H.
  - destruct (after_last_dot_Some _ _ H) as [Hd Hpkg].
    split; [exact Hd|right; exact Hpkg].
  - apply after_last_dot_None in H. split; [exact H|left; now split].
Qed.

(** X2. Only the last component of a dotted name is looked for: the
    package part of the name does not influence which file is found. *)
Theorem find_notebook_ignores_package
    (fs : gmap string file) (pkg leaf : string)
    (path : option (list string)) :
  has_dot leaf = false ->
  find_notebook fs (pkg ++ "." ++ leaf) path = find_notebook fs leaf path.
Proof.
  intros Hleaf. unfold find_notebook, rsplit_last.
  rewrite (after_last_dot_app pkg leaf Hleaf).
  apply after_last_dot_None in Hleaf. now rewrite Hleaf.
Qed.

Lemma find_notebook_ignores_package_witness :
  find_notebook Sample.files ("pkg.sub" ++ "." ++ "my_nb") (Some ["d2"])
  = find_notebook Sample.files "my_nb" (Some ["d2"]).
Proof.
  apply (find_notebook_ignores_package Sample.files "pkg.sub" "my_nb"
           (Some ["d2"])).
  reflexivity.
Defined.

(** ** What [find_notebook] returns *)

Lemma has_underscore_replace (s : string) :
  has_underscore (replace_underscores s) = false.
Proof.
  induction s as [|c s IH]; simpl; [reflexivity|]. rewrite IH.
  destruct (Ascii.eqb c underscore) eqn:E; [reflexivity|].
  now rewrite E.
Qed.

Lemma find_in_dirs_Some (fs : gmap string file) (name : string)
    (dirs : list string) (p : string) :
  find_in_dirs fs name dirs = Some p ->
  isfile fs p = true /\
  exists d, In d dirs /\
    (p = primary_candidate name d \/
     (isfile fs (primary_candidate name d) = false /\
      p = replace_underscores (primary_candidate name d))).
Proof.
  induction dirs as [|d ds IH]; simpl; [discriminate|].
  fold (primary_candidate name d).
  destruct (isfile fs (primary_candidate name d)) eqn:E1.
  { intros [= <-]. split; [exact E1|]. exists d. split; [now left|now left]. }
  destruct (isfile fs (replace_underscores (primary_candidate name d)))
    eqn:E2.
  { intros [= <-]. split; [exact E2|]. exists d.
    split; [now left|right; now split]. }
  intros H. destruct (IH H) as [Hf (d' & Hin & Hp)].
  split; [exact Hf|]. exists d'. split; [now right|exact Hp].
Qed.

Lemma find_in_dirs_None_inv (fs : gmap string file) (name : string)
    (dirs : list string) :
  find_in_dirs fs name dirs = None ->
  forall d, In d dirs ->
    isfile fs (primary_candidate name d) = false /\
    isfile fs (replace_underscores (primary_candidate name d)) = false.
Proof.
  induction dirs as [|d ds IH]; simpl; [intros _ d []|].
  fold (primary_candidate name d).
  destruct (isfile fs (primary_candidate name d)) eqn:E1; [discriminate|].
  destruct (isfile fs (replace_underscores (primary_candidate name d)))
    eqn:E2; [discriminate|].
  intros H d' [<-|Hin]; [now split|now apply IH].
Qed.

Lemma find_in_dirs_skip (fs : gmap string file) (name : string)
    (pre rest : list string) :
  (forall d, In d pre ->
     isfile fs (primary_candidate name d) = false /\
     isfile fs (replace_underscores (primary_candidate name d)) = false) ->
  find_in_dirs fs name (pre ++ rest)%list = find_in_dirs fs name rest.
Proof.
  induction pre as [|d pre IH]; intros H; simpl; [reflexivity|].
  destruct (H d (or_introl eq_refl)) as [H1 H2].
  unfold primary_candidate in H1, H2. rewrite H1, H2.
  apply IH. intros d' Hd'. apply H. now right.
Qed.

(** X3. A path that [find_notebook] returns names a regular file, and it
    is built from one of the directories searched: it is that directory's
    candidate for the unmodified name, or, when that candidate is no file,
    the same candidate with its underscores replaced by spaces. *)
Theorem find_notebook_sound
    (fs : gmap string file) (fullname : string)
    (path : option (list string)) (p : string) :
  find_notebook fs fullname path = Some p ->
  isfile fs p = true /\
  exists d, In d (effective_path path) /\
    (p = primary_candidate (rsplit_last fullname) d \/
     (isfile fs (primary_candidate (rsplit_last fullname) d) = false /\
      p = replace_underscores
            (primary_candidate (rsplit_last fullname) d))).
Proof. apply find_in_dirs_Some. Qed.

Lemma find_notebook_sound_witness :
  isfile Sample.files "d1/my nb.ipynb" = true /\
  exists d, In d (effective_path (Some ["d1"; "d2"])) /\
    ("d1/my nb.ipynb" = primary_candidate (rsplit_last "pkg.my_nb") d \/
     (isfile Sample.files (primary_candidate (rsplit_last "pkg.my_nb") d)
      = false /\
      "d1/my nb.ipynb"
      = replace_underscores (primary_candidate (rsplit_last "pkg.my_nb") d))).
Proof.
  apply (find_notebook_sound Sample.files "pkg.my_nb" (Some ["d1"; "d2"])).
  vm_compute; reflexivity.
Defined.

(** X4. [find_notebook] returns [None] exactly when, for every directory
    searched, neither the candidate for the unmodified name nor that
    candidate with underscores replaced is a regular file. *)
Theorem find_notebook_None_iff
    (fs : gmap string file) (fullname : string)
    (path : option (list string)) :
  find_notebook fs fullname path = None <->
  forall d, In d (effective_path path) ->
    isfile fs (primary_candidate (rsplit_last fullname) d) = false /\
    isfile fs (replace_underscores
                 (primary_candidate (rsplit_last fullname) d)) = false.
Proof.
  split; [apply find_in_dirs_None_inv|apply find_in_dirs_None].
Qed.

(** X5. The first directory with a match wins: when no candidate of the
    directories before [d] is a file and [d]'s candidate for the
    unmodified name is, that candidate is returned whatever directories
    follow. *)
Theorem find_notebook_first_match
    (fs : gmap string file) (fullname : string)
    (pre post : list string) (d : string) :
  (forall d', In d' pre ->
     isfile fs (primary_candidate (rsplit_last fullname) d') = false /\
     isfile fs (replace_underscores
                  (primary_candidate (rsplit_last fullname) d')) = false) ->
  isfile fs (primary_candidate (rsplit_last fullname) d) = true ->
  find_notebook fs fullname (Some (pre ++ d :: post)%list)
  = Some (primary_candidate (rsplit_last fullname) d).
Proof.
  intros Hpre Hd. unfold find_notebook.
  assert (Heff : effective_path (Some (pre ++ d :: post)%list)
                 = (pre ++ d :: post)%list) by now destruct pre.
  rewrite Heff, (find_in_dirs_skip _ _ _ _ Hpre). simpl.
  fold (primary_candidate (rsplit_last fullname) d). now rewrite Hd.
Qed.

Lemma find_notebook_first_match_witness :
  find_notebook Sample.files "nb" (Some (["d1"] ++ "a" :: ["a/b"])%list)
  = Some (primary_candidate (rsplit_last "nb") "a").
Proof.
  apply (find_notebook_first_match Sample.files "nb" ["d1"] ["a/b"] "a").
  - intros d' [<-|[]]; vm_compute; split; reflexivity.
  - vm_compute; reflexivity.
Defined.

(** X6. A returned path that contains an underscore is always the
    candidate for the unmodified name: the fallback replaces the
    underscores of the whole joined path, those of the directory
    included, so it never yields a path with an underscore. *)
Theorem find_notebook_underscore_is_primary
    (fs : gmap string file) (fullname : string)
    (path : option (list string)) (p : string) :
  find_notebook fs fullname path = Some p ->
  has_underscore p = true ->
  exists d, In d (effective_path path) /\
            p = primary_candidate (rsplit_last fullname) d.
Proof.
  intros Hfind Hu.
  destruct (find_in_dirs_Some _ _ _ _ Hfind) as [_ (d & Hin & [Hp|[_ Hp]])].
  - now exists d.
  - rewrite Hp, has_underscore_replace in Hu. discriminate.
Qed.

Lemma find_notebook_underscore_is_primary_witness :
  exists d, In d (effective_path (Some ["d2"; "d1"])) /\
            "d2/my_nb.ipynb" = primary_candidate (rsplit_last "pkg.my_nb") d.
Proof.
  apply (find_notebook_underscore_is_primary Sample.files "pkg.my_nb"
           (Some ["d2"; "d1"]) "d2/my_nb.ipynb");
    vm_compute; reflexivity.
Defined.

(** ** More on the loader *)

Lemma set_user_ns_same (w : world) (l : loc) :
  user_ns w = l -> set_user_ns l w = w.
Proof. destruct w. simpl. now intros ->. Qed.

(** Two interpreters that agree wherever [shell.user_ns] is the
    dictionary given as globals and locals run the cells alike, once the
    first of them never rebinds [shell.user_ns]. *)
Lemma exec_cells_ext (transform_cell : string -> string)
    (exec1 exec2 : string -> loc -> loc -> world -> world * option exn)
    (cells : list cell) (m : loc) (w : world) :
  (forall code g w0, user_ns w0 = g ->
     exec1 code g g w0 = exec2 code g g w0) ->
  keeps_user_ns exec1 ->
  user_ns w = m ->
  exec_cells transform_cell exec1 cells m w
  = exec_cells transform_cell exec2 cells m w.
Proof.
  intros Hagree Hkeep. revert w.
  induction cells as [|c cs IH]; intros w Hw; simpl; [reflexivity|].
  destruct (String.eqb (cell_type c) "code"); [|now apply IH].
  rewrite <- (Hagree _ _ _ Hw).
  pose proof (Hkeep (transform_cell (source c)) m m w) as Hns.
  destruct (exec1 _ m m w) as [w' [e|]]; [reflexivity|].
  apply IH. simpl in Hns. now rewrite Hns.
Qed.

(** Whatever all executed code preserves of the state the loop starts
    in, a load that reaches the loop preserves. *)
Lemma load_module_loop_invariant (transform_cell : string -> string)
    (exec : string -> loc -> loc -> world -> world * option exn)
    (P : world -> Prop) (self : NotebookLoader) (fullname : string)
    (w : world) (path : string) (cells : list cell) :
  find_notebook (fs w) fullname (loader_path self) = Some path ->
  fs w !! path = Some (Notebook cells) ->
  (forall code g l w0, P w0 -> P (exec code g l w0).1) ->
  (forall l w0, P w0 -> P (set_user_ns l w0)) ->
  P (create_module self fullname path (print (importing (Some path)) w)).2 ->
  P (load_module transform_cell exec self fullname w).1.
Proof.
  intros Hfind Hfile Hexec Hset Hstart.
  rewrite (load_module_found _ _ _ _ _ _ _ Hfind Hfile). cbv zeta.
  cbn [fst]. apply Hset.
  apply exec_cells_invariant; [intros; now apply Hexec|now apply Hset].
Qed.

(** The three ways [load_module] can go, by what [find_notebook] and the
    file system give. *)
Lemma load_module_cases (transform_cell : string -> string)
    (exec : string -> loc -> loc -> world -> world * option exn)
    (self : NotebookLoader) (fullname : string) (w : world) :
  (exists e, load_module transform_cell exec self fullname w
             = (print (importing
                         (find_notebook (fs w) fullname (loader_path self)))
                      w, Raise e)) \/
  (exists path cells,
     find_notebook (fs w) fullname (loader_path self) = Some path /\
     fs w !! path = Some (Notebook cells)).
Proof.
  destruct (find_notebook (fs w) fullname (loader_path self)) as [p|] eqn:Hf.
  2:{ left. exists open_None_error. unfold load_module. now rewrite Hf. }
  destruct (fs w !! p) as [[e|cells]|] eqn:Hp.
  - left. exists e. unfold load_module. rewrite Hf.
    unfold open_and_read. simpl fs. now rewrite Hp.
  - right. eauto.
  - left. exists (open_missing_error p). unfold load_module. rewrite Hf.
    unfold open_and_read. simpl fs. now rewrite Hp.
Qed.

(** X7. When the file that is found cannot be read as a notebook, the
    error of the read propagates after the message is printed, and no
    module is created or registered: only standard output has changed. *)
Theorem load_module_unreadable
    (transform_cell : string -> string)
    (exec : string -> loc -> loc -> world -> world * option exn)
    (self : NotebookLoader) (fullname : string) (w : world)
    (path : string) (e : exn) :
  find_notebook (fs w) fullname (loader_path self) = Some path ->
  fs w !! path = Some (Unreadable e) ->
  load_module transform_cell exec self fullname w
  = (print (importing (Some path)) w, Raise e).
Proof.
  intros Hfind Hfile. unfold load_module. rewrite Hfind.
  unfold open_and_read. simpl fs. now rewrite Hfile.
Qed.

Lemma load_module_unreadable_witness :
  load_module Sample.transform_cell Sample.exec Sample.loader0 "ab"
    (set_fs (<["ab.ipynb" := Unreadable (Exn "NotJSONError" [] None)]> ∅)
            Sample.w0)
  = (print (importing (Some "ab.ipynb"))
       (set_fs (<["ab.ipynb" := Unreadable (Exn "NotJSONError" [] None)]> ∅)
               Sample.w0),
     Raise (Exn "NotJSONError" [] None)).
Proof.
  apply (load_module_unreadable Sample.transform_cell Sample.exec
           Sample.loader0 "ab" _ "ab.ipynb");
    vm_compute; reflexivity.
Defined.

(** X8. A load that returns gives a module that did not exist before,
    also when the name was registered already: nothing in [load_module]
    looks the name up in [sys.modules].  When executed code leaves the
    name's entry alone, [sys.modules] maps the name to the module
    returned. *)
Theorem load_module_registers_new_module
    (transform_cell : string -> string)
    (exec : string -> loc -> loc -> world -> world * option exn)
    (self : NotebookLoader) (fullname : string) (w w' : world) (m : loc) :
  load_module transform_cell exec self fullname w = (w', Return m) ->
  heap w !! m = None /\
  (keeps_registered exec fullname -> sys_modules w' !! fullname = Some m).
Proof.
  intros Hload.
  destruct (load_module_returns_inv _ _ _ _ _ _ _ Hload)
    as (path & cells & Hfind & Hfile).
  pose proof (load_module_found transform_cell exec _ _ _ _ _ Hfind Hfile)
    as Heq. cbv zeta in Heq. rewrite Hload in Heq.
  destruct (create_module self fullname path _) as [m1 w1] eqn:Hc.
  cbn [fst snd] in Heq.
  assert (Hm : m = m1).
  { destruct (exec_cells _ _ _ _ _).2; congruence. }
  subst m1.
  assert (Hnew : heap w !! m = None).
  { injection Hc as Hm _. rewrite <- Hm. simpl.
    apply not_elem_of_dom, is_fresh. }
  split; [exact Hnew|].
  intros Hkeep.
  pose proof (load_module_loop_invariant transform_cell exec
    (fun w0 => sys_modules w0 !! fullname = Some m)
    self fullname w path cells Hfind Hfile) as Hinv.
  rewrite Hload in Hinv. apply Hinv.
  - intros code g l w0 H0. now rewrite Hkeep.
  - intros l w0 H0. exact H0.
  - rewrite Hc. cbn [snd]. eapply create_module_registered, Hc.
Qed.

Lemma load_module_registers_new_module_witness :
  heap (load_module Sample.transform_cell Sample.exec Sample.loader0 "ab"
          Sample.w0).1 !! 3%positive = None /\
  sys_modules
    (load_module Sample.transform_cell Sample.exec Sample.loader0 "ab"
       (load_module Sample.transform_cell Sample.exec Sample.loader0 "ab"
          Sample.w0).1).1 !! "ab" = Some 3%positive.
Proof.
  destruct (load_module_registers_new_module
              Sample.transform_cell Sample.exec Sample.loader0 "ab"
              (load_module Sample.transform_cell Sample.exec Sample.loader0
                 "ab" Sample.w0).1
              (load_module Sample.transform_cell Sample.exec Sample.loader0
                 "ab"
                 (load_module Sample.transform_cell Sample.exec
                    Sample.loader0 "ab" Sample.w0).1).1
              3%positive) as [Hnew Hreg].
  { vm_compute; reflexivity. }
  split; [exact Hnew|].
  apply Hreg, sample_exec_keeps_registered.
Defined.

(** X9. However a load of one name ends, the entry of [sys.modules] for
    any other name is what it was, when executed code leaves that entry
    alone. *)
Theorem load_module_keeps_other_modules
    (transform_cell : string -> string)
    (exec : string -> loc -> loc -> world -> world * option exn)
    (self : NotebookLoader) (fullname other : string) (w : world) :
  other <> fullname ->
  keeps_registered exec other ->
  sys_modules (load_module transform_cell exec self fullname w).1 !! other
  = sys_modules w !! other.
Proof.
  intros Hne Hkeep.
  destruct (load_module_cases transform_cell exec self fullname w)
    as [[e ->]|(path & cells & Hfind & Hfile)]; [reflexivity|].
  apply (load_module_loop_invariant transform_cell exec
           (fun w0 => sys_modules w0 !! other = sys_modules w !! other)
           self fullname w path cells Hfind Hfile).
  - intros code g l w0 H0. now rewrite Hkeep.
  - intros l w0 H0. exact H0.
  - simpl. now apply lookup_insert_ne.
Qed.

Lemma load_module_keeps_other_modules_witness :
  sys_modules
    (load_module Sample.transform_cell Sample.exec Sample.loader0 "fail"
       (load_module Sample.transform_cell Sample.exec Sample.loader0 "ab"
          Sample.w0).1).1 !! "ab"
  = sys_modules
      (load_module Sample.transform_cell Sample.exec Sample.loader0 "ab"
         Sample.w0).1 !! "ab".
Proof.
  apply (load_module_keeps_other_modules Sample.transform_cell Sample.exec
           Sample.loader0 "fail" "ab").
  - discriminate.
  - apply sample_exec_keeps_registered.
Defined.

(** X10. However a load ends, every dictionary that existed before it,
    the namespace of every module loaded earlier among them, has the
    contents it had, when executed code writes only to its own scope and
    to the shell's current user namespace. *)
Theorem load_module_keeps_existing_namespaces
    (transform_cell : string -> string)
    (exec : string -> loc -> loc -> world -> world * option exn)
    (self : NotebookLoader) (fullname : string) (w : world) (x : loc) :
  is_Some (heap w !! x) ->
  writes_only_scopes exec -> keeps_user_ns exec ->
  heap (load_module transform_cell exec self fullname w).1 !! x
  = heap w !! x.
Proof.
  intros Hlive Hframe Hkeep.
  destruct (load_module_cases transform_cell exec self fullname w)
    as [[e ->]|(path & cells & Hfind & Hfile)]; [reflexivity|].
  rewrite (load_module_found _ _ _ _ _ _ _ Hfind Hfile). cbv zeta.
  cbn [fst]. set (w0 := print _ w).
  destruct (create_module_heap_other self fullname path w0 x Hlive)
    as [Hne Hsame].
  destruct (create_module self fullname path w0) as [m w1]. simpl in Hne, Hsame.
  cbn [fst snd heap set_user_ns].
  apply (exec_cells_invariant transform_cell exec
           (fun w' => user_ns w' = m /\ heap w' !! x = heap w !! x)
           cells m (set_user_ns m w1)); [|split; [reflexivity|exact Hsame]].
  intros code w3 [Hu Hh]. split.
  - now rewrite Hkeep.
  - rewrite Hframe; [exact Hh|exact Hne|]. rewrite Hu. exact Hne.
Qed.

Lemma load_module_keeps_existing_namespaces_witness :
  heap
    (load_module Sample.transform_cell Sample.exec Sample.loader0 "magic"
       (load_module Sample.transform_cell Sample.exec Sample.loader0 "ab"
          Sample.w0).1).1 !! 2%positive
  = heap
      (load_module Sample.transform_cell Sample.exec Sample.loader0 "ab"
         Sample.w0).1 !! 2%positive.
Proof.
  apply (load_module_keeps_existing_namespaces Sample.transform_cell
           Sample.exec Sample.loader0 "magic").
  - apply (bool_decide_eq_true_1 (is_Some _)). vm_compute. reflexivity.
  - exact sample_exec_writes_only_scopes.
  - exact sample_exec_keeps_user_ns.
Defined.

(** X11. Cells are executed only in states where [shell.user_ns] is the
    namespace of the module being loaded, which is also the globals and
    the locals of the executed code: when executed code never rebinds
    [shell.user_ns], a load depends on the interpreter only through what
    it does in such states. *)
Theorem load_module_runs_cells_in_module_ns
    (transform_cell : string -> string)
    (exec1 exec2 : string -> loc -> loc -> world -> world * option exn)
    (self : NotebookLoader) (fullname : string) (w : world) :
  (forall code g w0, user_ns w0 = g ->
     exec1 code g g w0 = exec2 code g g w0) ->
  keeps_user_ns exec1 ->
  load_module transform_cell exec1 self fullname w
  = load_module transform_cell exec2 self fullname w.
Proof.
  intros Hagree Hkeep. unfold load_module.
  destruct (open_and_read _ _) as [cells|e]; [|reflexivity].
  destruct (create_module _ _ _ _) as [m w1].
  rewrite (exec_cells_ext transform_cell exec1 exec2 cells m
             (set_user_ns m w1) Hagree Hkeep eq_refl).
  reflexivity.
Qed.

Lemma load_module_runs_cells_in_module_ns_witness :
  load_module Sample.transform_cell Sample.exec Sample.loader0 "magic"
    Sample.w0
  = load_module Sample.transform_cell sample_exec_in_globals Sample.loader0
      "magic" Sample.w0.
Proof.
  apply (load_module_runs_cells_in_module_ns Sample.transform_cell
           Sample.exec sample_exec_in_globals).
  - intros code g w0 Hw0. unfold sample_exec_in_globals.
    now rewrite (set_user_ns_same w0 g Hw0).
  - exact sample_exec_keeps_user_ns.
Defined.

(** X12. Every call of [load_module] writes one line to standard output,
    naming the path [find_notebook] gave ([None] when there is none),
    and it does so before the file is opened: the line is there however
    the load ends, when executed code prints nothing. *)
Theorem load_module_prints_path
    (transform_cell : string -> string)
    (exec : string -> loc -> loc -> world -> world * option exn)
    (self : NotebookLoader) (fullname : string) (w : world) :
  keeps_stdout exec ->
  stdout (load_module transform_cell exec self fullname w).1
  = (stdout w ++
     [importing (find_notebook (fs w) fullname (loader_path self))])%list.
Proof.
  intros Hkeep.
  destruct (load_module_cases transform_cell exec self fullname w)
    as [[e ->]|(path & cells & Hfind & Hfile)]; [reflexivity|].
  rewrite Hfind.
  apply (load_module_loop_invariant transform_cell exec
           (fun w0 => stdout w0
                      = (stdout w ++ [importing (Some path)])%list)
           self fullname w path cells Hfind Hfile).
  - intros code g l w0 H0. now rewrite Hkeep.
  - intros l w0 H0. exact H0.
  - reflexivity.
Qed.

Lemma sample_exec_keeps_stdout : keeps_stdout Sample.exec.
Proof.
  intros code g l w. sample_exec_cases; try reflexivity;
    unfold Sample.bind;
    match goal with |- context [heap w !! ?x] => now destruct (heap w !! x) end.
Qed.

Lemma load_module_prints_path_witness :
  stdout (load_module Sample.transform_cell Sample.exec Sample.loader0 "fail"
            Sample.w0).1
  = (stdout Sample.w0 ++
     [importing (find_notebook (fs Sample.w0) "fail"
                   (loader_path Sample.loader0))])%list.
Proof.
  apply (load_module_prints_path Sample.transform_cell Sample.exec
           Sample.loader0 "fail" Sample.w0).
  exact sample_exec_keeps_stdout.
Defined.

(** ** More on the finder *)

(** X13. How a call of [find_module] can end: it returns [None] exactly
    when no notebook is found; it raises only when a notebook is found
    and the search path is the empty list, and then with the [TypeError]
    of hashing a list; otherwise it returns a loader. *)
Theorem find_module_outcome
    (self : NotebookFinder) (fullname : string)
    (path : option (list string)) (w : world) :
  match (find_module self fullname path w).2 with
  | Return None => find_notebook (fs w) fullname path = None
  | Return (Some l) =>
      find_notebook (fs w) fullname path <> None /\ path <> Some []
  | Raise e =>
      find_notebook (fs w) fullname path <> None /\ path = Some [] /\
      e = unhashable_list
  end.
Proof.
  unfold find_module. rewrite not_path_find_notebook.
  destruct (find_notebook (fs w) fullname path) as [p|]; [|reflexivity].
  simpl bool_decide. cbv iota.
  destruct path as [[|d ds]|]; simpl.
  - repeat split; discriminate.
  - destruct (loaders self !! _); simpl; split; discriminate.
  - destruct (loaders self !! _); simpl; split; discriminate.
Qed.


(** X14. A call of [find_module] never removes or rebinds an entry of
    the finder's cache, and of the rest of the state it changes nothing
    but the supply of loader identities; when it does not return a loader
    it changes nothing at all. *)
Theorem find_module_frame
    (self : NotebookFinder) (fullname : string)
    (path : option (list string)) (w : world) :
  loaders self ⊆ loaders (find_module self fullname path w).1.1 /\
  fs (find_module self fullname path w).1.2 = fs w /\
  heap (find_module self fullname path w).1.2 = heap w /\
  sys_modules (find_module self fullname path w).1.2 = sys_modules w /\
  user_ns (find_module self fullname path w).1.2 = user_ns w /\
  stdout (find_module self fullname path w).1.2 = stdout w /\
  match (find_module self fullname path w).2 with
  | Return (Some _) => True
  | _ => (find_module self fullname path w).1 = (self, w)
  end.
Proof.
  unfold find_module.
  destruct (not_path _); [repeat split; done|].
  destruct (dict_key (key_of_path path)) as [k|e]; [|repeat split; done].
  destruct (loaders self !! k) as [l0|] eqn:Hl0; [repeat split; done|].
  cbn. repeat split; try reflexivity. now apply insert_subseteq.
Qed.



(** ** Cache keys and search paths *)

Lemma has_slash_app_sep (a b : string) :
  has_slash (a ++ os_path_sep ++ b) = true.
Proof.
  induction a as [|c a IH]; simpl; [reflexivity|].
  simpl in IH. rewrite IH. apply orb_true_r.
Qed.

Lemma app_sep_inj (d1 d2 r1 r2 : string) :
  has_slash d1 = false -> has_slash d2 = false ->
  d1 ++ os_path_sep ++ r1 = d2 ++ os_path_sep ++ r2 ->
  d1 = d2 /\ r1 = r2.
Proof.
  revert d2. induction d1 as [|c d1 IH]; intros [|c2 d2] H1 H2; simpl in *.
  - intros [= Hr]. now split.
  - intros [= Hc _]. subst c2. cbn in H2. discriminate H2.
  - intros [= Hc _]. subst c. cbn in H1. discriminate H1.
  - intros [= <- Heq].
    apply orb_false_iff in H1 as [_ H1]. apply orb_false_iff in H2 as [_ H2].
    destruct (IH d2 H1 H2 Heq) as [-> ->]. now split.
Qed.

Lemma sep_join_cons (d d' : string) (ds : list string) :
  sep_join (d :: d' :: ds) = d ++ os_path_sep ++ sep_join (d' :: ds).
Proof. reflexivity. Qed.

(** Joining directories that contain no separator loses nothing. *)
Lemma sep_join_inj (p q : list string) :
  forallb (fun d => negb (has_slash d)) p = true ->
  forallb (fun d => negb (has_slash d)) q = true ->
  p <> [] -> q <> [] ->
  sep_join p = sep_join q -> p = q.
Proof.
  revert q. induction p as [|d p IH]; intros q Hp Hq Hpn Hqn;
    [congruence|].
  destruct q as [|d' q]; [congruence|].
  cbn [forallb] in Hp, Hq.
  apply andb_true_iff in Hp as [Hd Hp]. apply andb_true_iff in Hq as [Hd' Hq].
  apply negb_true_iff in Hd, Hd'.
  destruct p as [|p1 p], q as [|q1 q].
  - simpl. now intros ->.
  - rewrite sep_join_cons. cbn [sep_join]. intros ->.
    rewrite has_slash_app_sep in Hd. discriminate.
  - rewrite sep_join_cons. cbn [sep_join]. intros <-.
    rewrite has_slash_app_sep in Hd'. discriminate.
  - rewrite !sep_join_cons. intros Heq.
    destruct (app_sep_inj _ _ _ _ Hd Hd' Heq) as [-> Hrest].
    f_equal. apply IH; try assumption; discriminate.
Qed.

Lemma key_of_path_inj_simple (p q : option (list string)) :
  simple_path p = true -> simple_path q = true ->
  key_of_path p = key_of_path q -> p = q.
Proof.
  destruct p as [[|d p]|], q as [[|d' q]|]; simpl;
    intros Hp Hq Hk; try discriminate; try reflexivity.
  f_equal. apply sep_join_inj; try assumption; try discriminate.
  now injection Hk.
Qed.

(** One call keeps every cached loader under the key of its own search
    path. *)
Lemma find_module_keyed (self : NotebookFinder) (fullname : string)
    (path : option (list string)) (w : world) :
  finder_keyed self ->
  finder_keyed (find_module self fullname path w).1.1.
Proof.
  intros Hkeyed. unfold find_module.
  destruct (not_path _); [exact Hkeyed|].
  destruct (dict_key (key_of_path path)) as [k|e] eqn:Hk; [|exact Hkeyed].
  destruct (loaders self !! k) as [l0|]; [exact Hkeyed|].
  intros k1 l1. cbn [fst snd loaders]. rewrite lookup_insert.
  case_decide.
  - intros [= <-]. now subst k1.
  - apply Hkeyed.
Qed.

Lemma find_module_simple (self : NotebookFinder) (fullname : string)
    (path : option (list string)) (w : world) :
  simple_path path = true ->
  finder_simple self ->
  finder_simple (find_module self fullname path w).1.1.
Proof.
  intros Hpath Hsimple. unfold find_module.
  destruct (not_path _); [exact Hsimple|].
  destruct (dict_key (key_of_path path)) as [k|e] eqn:Hk; [|exact Hsimple].
  destruct (loaders self !! k) as [l0|]; [exact Hsimple|].
  intros k1 l1. cbn [fst snd loaders]. rewrite lookup_insert.
  case_decide.
  - intros [= <-]. exact Hpath.
  - apply Hsimple.
Qed.

Lemma after_calls_keyed (calls : list find_call) (self : NotebookFinder)
    (w : world) :
  finder_keyed self -> finder_keyed (after_calls self w calls).1.
Proof.
  revert self w. induction calls as [|c cs IH]; intros self w Hk;
    [exact Hk|].
  simpl.
  pose proof (find_module_keyed self (call_name c) (call_path c)
                (set_fs (call_fs c) w) Hk) as Hstep.
  destruct (find_module self _ _ _) as [[self' w'] r]. now apply IH.
Qed.

Lemma after_calls_simple (calls : list find_call) (self : NotebookFinder)
    (w : world) :
  Forall (fun c => simple_path (call_path c) = true) calls ->
  finder_simple self -> finder_simple (after_calls self w calls).1.
Proof.
  intros Hcalls. revert self w.
  induction Hcalls as [|c cs Hc _ IH]; intros self w Hs; [exact Hs|].
  simpl.
  pose proof (find_module_simple self (call_name c) (call_path c)
                (set_fs (call_fs c) w) Hc Hs) as Hstep.
  destruct (find_module self _ _ _) as [[self' w'] r]. now apply IH.
Qed.

Lemma new_finder_keyed : finder_keyed new_finder.
Proof. intros k l. simpl. now rewrite lookup_empty. Qed.

Lemma new_finder_simple : finder_simple new_finder.
Proof. intros k l. simpl. now rewrite lookup_empty. Qed.

(** X16. Among the calls made on a new finder, the loader a call
    returns is bound to a search path with the same cache key as the
    call's own search path; it need not be the call's search path. *)
Theorem find_modules_loader_key
    (w : world) (calls : list find_call) (i : nat) (c : find_call)
    (l : NotebookLoader) :
  calls !! i = Some c ->
  find_modules new_finder w calls !! i = Some (Return (Some l)) ->
  key_of_path (loader_path l) = key_of_path (call_path c).
Proof.
  intros Hc Hr.
  destruct (find_modules_cached calls new_finder w i c l
              (new_finder_ok w) Hc Hr) as (k & Hk & Hl).
  pose proof (after_calls_keyed calls new_finder w new_finder_keyed k l Hl)
    as Hkl.
  now apply (dict_key_inj _ _ _ _ Hkl Hk).
Qed.

Lemma find_modules_loader_key_witness :
  key_of_path (loader_path (Loader 0 (Some ["a/b"])))
  = key_of_path (Some ["a"; "b"]).
Proof.
  apply (find_modules_loader_key Sample.w0
           [FindCall Sample.files "nb" (Some ["a/b"]);
            FindCall Sample.files "nb" (Some ["a"; "b"])]
           1 (FindCall Sample.files "nb" (Some ["a"; "b"])));
    vm_compute; reflexivity.
Defined.

(** X17. When no directory of any call's search path contains the
    separator, the loader a call returns is bound to exactly the call's
    search path, so it will look for notebooks where the finder did. *)
Theorem find_modules_loader_path
    (w : world) (calls : list find_call) (i : nat) (c : find_call)
    (l : NotebookLoader) :
  Forall (fun c => simple_path (call_path c) = true) calls ->
  calls !! i = Some c ->
  find_modules new_finder w calls !! i = Some (Return (Some l)) ->
  loader_path l = call_path c /\
  forall fs fullname,
    find_notebook fs fullname (loader_path l)
    = find_notebook fs fullname (call_path c).
Proof.
  intros Hsimple Hc Hr.
  destruct (find_modules_cached calls new_finder w i c l
              (new_finder_ok w) Hc Hr) as (k & Hk & Hl).
  pose proof (after_calls_keyed calls new_finder w new_finder_keyed k l Hl)
    as Hkl.
  pose proof (after_calls_simple calls new_finder w Hsimple
                new_finder_simple k l Hl) as Hsl.
  assert (Hsc : simple_path (call_path c) = true).
  { rewrite Forall_lookup in Hsimple. exact (Hsimple i c Hc). }
  assert (Heq : loader_path l = call_path c).
  { apply key_of_path_inj_simple; try assumption.
    now apply (dict_key_inj _ _ _ _ Hkl Hk). }
  split; [exact Heq|]. intros fs fullname. now rewrite Heq.
Qed.

Lemma find_modules_loader_path_witness :
  loader_path (Loader 0 (Some ["a"])) = Some ["a"] /\
  forall fs fullname,
    find_notebook fs fullname (loader_path (Loader 0 (Some ["a"])))
    = find_notebook fs fullname (Some ["a"]).
Proof.
  apply (find_modules_loader_path Sample.w0
           [FindCall Sample.files "nb" (Some ["a"]);
            FindCall Sample.files "ab" None]
           0 (FindCall Sample.files "nb" (Some ["a"]))).
  - repeat constructor.
  - reflexivity.
  - vm_compute; reflexivity.
Defined.

(** X18. When no directory of any call's search path contains the
    separator, two calls on a new finder with different search paths
    that both return a loader return different instances. *)
Theorem find_modules_distinct_loaders
    (w : world) (calls : list find_call) (i j : nat)
    (ci cj : find_call) (li lj : NotebookLoader) :
  Forall (fun c => simple_path (call_path c) = true) calls ->
  calls !! i = Some ci -> calls !! j = Some cj ->
  find_modules new_finder w calls !! i = Some (Return (Some li)) ->
  find_modules new_finder w calls !! j = Some (Return (Some lj)) ->
  call_path ci <> call_path cj ->
  loader_id li <> loader_id lj.
Proof.
  intros Hsimple Hci Hcj Hri Hrj Hne Hid.
  destruct (find_modules_cached calls new_finder w i ci li
              (new_finder_ok w) Hci Hri) as (ki & Hki & Hli).
  destruct (find_modules_cached calls new_finder w j cj lj
              (new_finder_ok w) Hcj Hrj) as (kj & Hkj & Hlj).
  destruct (after_calls_ok calls new_finder w (new_finder_ok w))
    as [[_ Hinj] _].
  pose proof (Hinj ki kj li lj Hli Hlj Hid) as Hk. subst kj.
  apply Hne. rewrite Forall_lookup in Hsimple.
  apply key_of_path_inj_simple; [exact (Hsimple i ci Hci)|
                                 exact (Hsimple j cj Hcj)|].
  now apply (dict_key_inj _ _ _ _ Hki Hkj).
Qed.

Lemma find_modules_distinct_loaders_witness :
  loader_id (Loader 0 (Some ["a"])) <> loader_id (Loader 1 None).
Proof.
  apply (find_modules_distinct_loaders Sample.w0
           [FindCall Sample.files "nb" (Some ["a"]);
            FindCall Sample.files "ab" None]
           0 1 (FindCall Sample.files "nb" (Some ["a"]))
           (FindCall Sample.files "ab" None)).
  - repeat constructor.
  - reflexivity.
  - reflexivity.
  - vm_compute; reflexivity.
  - vm_compute; reflexivity.
  - discriminate.
Defined.
